(** * Coverage comparison engine (services/comparison.py)

    A shallow embedding of the line traverser, its visitors, the per-file
    comparison facade, the segment grouper and the two store/cache helpers of
    the comparison service, followed by the properties established for them.

    Python values are modelled as follows: integers are [Z]; a value that may
    be [None] is an [option]; lists are [list]; the [Counter] holding the
    change summary is a [gmap string Z] read with default [0]; an exception
    is an outcome [Raise e]; the [while] loop of [apply] takes a fuel argument
    and answers [OutOfFuel] when it is not done within it. *)

From Stdlib Require Import ZArith String Ascii List Bool Lia.
From stdpp Require Import gmap strings list fin_maps.

Open Scope string_scope.
Open Scope list_scope.
Open Scope Z_scope.

(** ** Outcomes of fallible, possibly diverging code *)

(** The exception classes that occur. [OSError] stands for the class and
    its subclasses. [RedisConnectionError] is
    [redis.exceptions.ConnectionError], which the redis client raises when it
    cannot reach the server; it derives from [RedisError], not from
    [OSError]. *)
Inductive exn := IndexError | ValueError | TypeError | OSError | RedisConnectionError.

Inductive outcome (A : Type) :=
  | Ok (a : A)
  | Raise (e : exn)
  | OutOfFuel.
Arguments Ok {A} a.
Arguments Raise {A} e.
Arguments OutOfFuel {A}.

Definition bind {A B} (m : outcome A) (k : A -> outcome B) : outcome B :=
  match m with
  | Ok a => k a
  | Raise e => Raise e
  | OutOfFuel => OutOfFuel
  end.

Definition map_outcome {A B} (f : A -> B) (m : outcome A) : outcome B :=
  bind m (fun a => Ok (f a)).

Notation "'let*' x ':=' m 'in' k" := (bind m (fun x => k))
  (at level 10, x pattern, m at level 100, k at level 200).

(** ** Python list primitives *)

Module Py.

(** [l[i]]: a negative index counts from the end; [None] is [IndexError]. *)
Definition index {A} (l : list A) (i : Z) : option A :=
  let n := Z.of_nat (length l) in
  if (0 <=? i) && (i <? n) then l !! Z.to_nat i
  else if (- n <=? i) && (i <? 0) then l !! Z.to_nat (n + i)
  else None.

(** A slice bound as Python normalises it against the length [n]. *)
Definition clamp (n i : Z) : Z :=
  if i <? 0 then Z.max (i + n) 0 else Z.min i n.

(** [l[a:b]]. *)
Definition slice {A} (l : list A) (a b : Z) : list A :=
  let n := Z.of_nat (length l) in
  let a' := clamp n a in
  let b' := clamp n b in
  take (Z.to_nat (b' - a')) (drop (Z.to_nat a') l).

(** Truth value of a list. *)
Definition truthy {A} (l : list A) : bool :=
  match l with [] => false | _ :: _ => true end.

End Py.

(** ** Diff-prefix recognisers *)

Definition MAX_DIFF_SIZE : Z := 170.

(** [line_value and line_value[0] == "+"], as a truth value. *)
Definition _is_added (line_value : option string) : bool :=
  match line_value with
  | Some (String c _) => Ascii.eqb c "+"%char
  | _ => false
  end.

Definition _is_removed (line_value : option string) : bool :=
  match line_value with
  | Some (String c _) => Ascii.eqb c "-"%char
  | _ => false
  end.

(** ** Diff segments (hunks) as the provider returns them *)

(** A hunk-header cell: an integer, a numeral string (the docstring of the
    traverser says the header is an array of strings), the empty string
    [HEmpty], or [None]. The last two are false; [int] rejects the empty
    string with a [ValueError] and [None] with a [TypeError]. *)
Inductive hval := HInt (n : Z) | HStr (n : Z) | HEmpty | HNone.

Definition int (h : hval) : outcome Z :=
  match h with
  | HInt n | HStr n => Ok n
  | HEmpty => Raise ValueError
  | HNone => Raise TypeError
  end.

(** [int(h or 1)]: zero, the empty string and [None] are false, a numeral
    string is true whatever it denotes. *)
Definition int_or_1 (h : hval) : Z :=
  match h with
  | HInt n => if n =? 0 then 1 else n
  | HStr n => n
  | HEmpty => 1
  | HNone => 1
  end.

Record hunk_header := Header {
  base_start : hval;
  base_len : hval;
  head_start : hval;
  head_len : hval
}.

Record diff_segment := DiffSegment {
  header : hunk_header;
  lines : list string
}.

(** ** Visitors as an interface *)

(** A visitor is called with [(base_ln, head_ln, value, is_diff)] on every
    step of a traversal and updates its own state. *)
Class Visitor (V : Type) :=
  call : option Z -> option Z -> option string -> bool -> V -> V.

(** The list [[v1, v2]] of two visitors: each is called in turn. *)
#[global] Instance pair_visitor {V1 V2} `{Visitor V1, Visitor V2} : Visitor (V1 * V2) :=
  fun base_ln head_ln value is_diff v =>
    (call base_ln head_ln value is_diff v.1, call base_ln head_ln value is_diff v.2).

(** ** FileComparisonTraverseManager *)

Module FileComparisonTraverseManager.

Record t := Manager {
  head_file_eof : Z;
  base_file_eof : Z;
  segments : list diff_segment;
  src : list string;
  base_ln : Z;
  head_ln : Z
}.

Definition __init__ (head_file_eof base_file_eof : Z)
    (segments : list diff_segment) (src : list string) : outcome t :=
  match segments with
  | seg :: _ =>
      let* b := int (base_start (header seg)) in
      let* h := int (head_start (header seg)) in
      Ok (Manager head_file_eof base_file_eof segments src (Z.min 1 b) (Z.min 1 h))
  | [] => Ok (Manager head_file_eof base_file_eof segments src 1 1)
  end.

Definition traverse_finished (self : t) : bool :=
  if Py.truthy (segments self) then false
  else if Py.truthy (src self) then Z.of_nat (length (src self)) <? head_ln self
  else (head_file_eof self <=? head_ln self) && (base_file_eof self <=? base_ln self).

Definition traversing_diff (self : t) : outcome bool :=
  match segments self with
  | [] => Ok false
  | seg :: _ =>
      let hd := header seg in
      let* b0 := int (base_start hd) in
      let base_ln_within_offset :=
        (b0 <=? base_ln self) && (base_ln self <? b0 + int_or_1 (base_len hd)) in
      let* h0 := int (head_start hd) in
      let head_ln_within_offset :=
        (h0 <=? head_ln self) && (head_ln self <? h0 + int_or_1 (head_len hd)) in
      Ok (base_ln_within_offset || head_ln_within_offset)
  end.

(** Returns the line and the manager after the pop. *)
Definition pop_line (self : t) : outcome (option string * t) :=
  let* in_diff := traversing_diff self in
  if in_diff then
    match segments self with
    | seg :: rest =>
        match lines seg with
        | l :: ls =>
            Ok (Some l, Manager (head_file_eof self) (base_file_eof self)
                          (DiffSegment (header seg) ls :: rest) (src self)
                          (base_ln self) (head_ln self))
        | [] => Raise IndexError
        end
    | [] => Raise IndexError
    end
  else if Py.truthy (src self) then
    match Py.index (src self) (head_ln self - 1) with
    | Some l => Ok (Some l, self)
    | None => Raise IndexError
    end
  else Ok (None, self).

(** The cursors after a line has been visited. *)
Definition advance (line_value : option string) (self : t) : t :=
  if _is_added line_value then
    Manager (head_file_eof self) (base_file_eof self) (segments self) (src self)
      (base_ln self) (head_ln self + 1)
  else if _is_removed line_value then
    Manager (head_file_eof self) (base_file_eof self) (segments self) (src self)
      (base_ln self + 1) (head_ln self)
  else
    Manager (head_file_eof self) (base_file_eof self) (segments self) (src self)
      (base_ln self + 1) (head_ln self + 1).

(** The front segment is dropped once it has no line left. *)
Definition drop_done (self : t) : t :=
  match segments self with
  | seg :: rest =>
      if Py.truthy (lines seg) then self
      else Manager (head_file_eof self) (base_file_eof self) rest (src self)
             (base_ln self) (head_ln self)
  | [] => self
  end.

Section Apply.
Context {V : Type} `{Visitor V}.

(** One iteration of the loop body of [apply]. *)
Definition step (self : t) (visitors : V) : outcome (t * V) :=
  let* (line_value, self1) := pop_line self in
  let* is_diff := traversing_diff self1 in
  let visitors' :=
    call (if _is_added line_value then None else Some (base_ln self1))
         (if _is_removed line_value then None else Some (head_ln self1))
         line_value is_diff visitors in
  Ok (drop_done (advance line_value self1), visitors').

Fixpoint apply (fuel : nat) (self : t) (visitors : V) : outcome (t * V) :=
  if traverse_finished self then Ok (self, visitors)
  else match fuel with
       | O => OutOfFuel
       | S fuel' =>
           let* (self', visitors') := step self visitors in
           apply fuel' self' visitors'
       end.
End Apply.

End FileComparisonTraverseManager.

(** ** Coverage classes and report files *)

(** Modelled from the spec: the enum [LineType] and the classifier
    [line_type] belong to the [shared] package, which is not part of this
    repository's sources. The spec gives three classes; the classifier is
    left as an interface over the type of raw coverage values. *)
Inductive LineType := hit | miss | partial.

#[global] Instance LineType_eq_dec : EqDecision LineType.
Proof. solve_decision. Defined.

Class Coverage (C : Type) := line_type : C -> LineType.

(** Modelled from the spec: numeric [1] is a hit, [0] a miss; this instance
    over integers reads every other number as a partial. *)
#[global] Instance Z_coverage : Coverage Z := fun n =>
  if n =? 0 then miss else if n =? 1 then hit else partial.

Section ReportFiles.
Context {C : Type}.

(** A line record [[coverage, ..., sessions, ...]]: a non-empty list whose
    cell 0 is the raw coverage value. *)
Record report_line := ReportLine {
  coverage0 : C;
  sessions : list (Z * C)
}.

(** A cell of [ReportFile._lines]: a false value (no record for that
    line), a line record, or the JSON text of one (old reports), held here
    together with what [json.loads] makes of it. *)
Inductive stored_line :=
  | NoLine
  | Row (l : report_line)
  | Legacy (decoded : report_line).

Record ReportFile := {
  _lines : list stored_line;
  eof : Z
}.
End ReportFiles.
Arguments report_line C : clear implicits.
Arguments stored_line C : clear implicits.
Arguments ReportFile C : clear implicits.

(** ** LineComparison *)

Module LineComparison.
Section Defs.
Context {C : Type} `{Coverage C}.

Record t := Make {
  base_line : option (report_line C);
  head_line : option (report_line C);
  base_ln : option Z;
  head_ln : option Z;
  value : string;
  is_diff : bool
}.

Definition added (self : t) : bool := _is_added (Some (value self)).
Definition removed (self : t) : bool := _is_removed (Some (value self)).

(** The pair is [(number["base"], number["head"])]. *)
Definition number (self : t) : option Z * option Z :=
  (if negb (added self) then base_ln self else None,
   if negb (removed self) then head_ln self else None).

(** The pair is [(coverage["base"], coverage["head"])]. *)
Definition coverage (self : t) : option LineType * option LineType :=
  (match base_line self with
   | Some l => if added self then None else Some (line_type (coverage0 l))
   | None => None
   end,
   match head_line self with
   | Some l => if removed self then None else Some (line_type (coverage0 l))
   | None => None
   end).
End Defs.
Arguments t C : clear implicits.

(** [sessions], for integer coverage values: the sum of the list of the
    session coverages that equal 1, and [None] when the head line is absent
    or that list is empty. *)
Definition sessions (self : t Z) : option Z :=
  match head_line self with
  | None => None
  | Some l =>
      let session_coverage := filter (fun c => c = 1) (map snd (sessions l)) in
      match session_coverage with
      | [] => None
      | a :: rest => Some (fold_left Z.add rest a)
      end
  end.
End LineComparison.

(** ** Visitors *)

Module FileComparisonVisitor.
Section Defs.
Context {C : Type}.

Definition _get_line (report_file : option (ReportFile C)) (ln : option Z)
    : option (report_line C) :=
  match report_file, ln with
  | Some rf, Some n =>
      match Py.index (_lines rf) (n - 1) with
      | None => None
      | Some NoLine => None
      | Some (Row l) => Some l
      | Some (Legacy decoded) => Some decoded
      end
  | _, _ => None
  end.

Definition _get_lines (base_file head_file : option (ReportFile C))
    (base_ln head_ln : option Z) : option (report_line C) * option (report_line C) :=
  (_get_line base_file base_ln, _get_line head_file head_ln).
End Defs.
End FileComparisonVisitor.

Module CreateLineComparisonVisitor.
Import FileComparisonVisitor.
Section Defs.
Context {C : Type}.

Record t := Make {
  base_file : option (ReportFile C);
  head_file : option (ReportFile C);
  lines : list (LineComparison.t C)
}.

Definition __init__ (base_file head_file : option (ReportFile C)) : t :=
  Make base_file head_file [].

Definition __call__ (base_ln head_ln : option Z) (value : option string)
    (is_diff : bool) (self : t) : t :=
  match value with
  | None => self
  | Some v =>
      let '(base_line, head_line) :=
        _get_lines (base_file self) (head_file self) base_ln head_ln in
      Make (base_file self) (head_file self)
           (lines self ++ [LineComparison.Make base_line head_line base_ln head_ln v is_diff])
  end.

#[global] Instance visitor : Visitor t := __call__.
End Defs.
Arguments t C : clear implicits.
End CreateLineComparisonVisitor.

Module CreateChangeSummaryVisitor.
Import FileComparisonVisitor.
Section Defs.
Context {C : Type} `{Coverage C}.

Record t := Make {
  base_file : option (ReportFile C);
  head_file : option (ReportFile C);
  summary : gmap string Z
}.

Definition coverage_type_map (ty : LineType) : string :=
  match ty with
  | hit => "hits"
  | miss => "misses"
  | partial => "partials"
  end.

Definition __init__ (base_file head_file : option (ReportFile C)) : t :=
  Make base_file head_file ∅.

(** [Counter.__getitem__]: a missing bucket reads as [0]. *)
Definition count (summary : gmap string Z) (bucket : string) : Z :=
  default 0 (summary !! bucket).

Definition _update_summary (base_line head_line : report_line C)
    (summary : gmap string Z) : gmap string Z :=
  let kb := coverage_type_map (line_type (coverage0 base_line)) in
  let summary1 := <[kb := count summary kb - 1]> summary in
  let kh := coverage_type_map (line_type (coverage0 head_line)) in
  <[kh := count summary1 kh + 1]> summary1.

(** [value and value[0] in ["+", "-"]]. *)
Definition is_changed_source_line (value : option string) : bool :=
  match value with
  | Some (String c _) => Ascii.eqb c "+"%char || Ascii.eqb c "-"%char
  | _ => false
  end.

Definition __call__ (base_ln head_ln : option Z) (value : option string)
    (is_diff : bool) (self : t) : t :=
  if is_changed_source_line value then self
  else
    match _get_lines (base_file self) (head_file self) base_ln head_ln with
    | (Some base_line, Some head_line) =>
        if decide (line_type (coverage0 base_line) = line_type (coverage0 head_line))
        then self
        else Make (base_file self) (head_file self)
                  (_update_summary base_line head_line (summary self))
    | _ => self
    end.

#[global] Instance visitor : Visitor t := __call__.
End Defs.
Arguments t C : clear implicits.
End CreateChangeSummaryVisitor.

(** ** Segment: the display hunks of a file *)

Module Segment.

Definition padding_lines : Z := 3.
Definition line_distance : Z := 6.

(** The loop that splits the line numbers of interest into groups; its
    state is [(segmented_lines, last)]. *)
Fixpoint append_to_last (groups : list (list Z)) (x : Z) : list (list Z) :=
  match groups with
  | [] => []
  | [g] => [g ++ [x]]
  | g :: rest => g :: append_to_last rest x
  end.

Definition group_step (acc : list (list Z) * option Z) (line_number : Z)
    : list (list Z) * option Z :=
  let '(segmented_lines, last) := acc in
  let same_group :=
    match last with
    | None => true
    | Some l => line_number - l <=? line_distance
    end in
  (if same_group then append_to_last segmented_lines line_number
   else segmented_lines ++ [[line_number]],
   Some line_number).

Definition segmented_lines (line_numbers : list Z) : list (list Z) :=
  if 0 <? Z.of_nat (length line_numbers)
  then (fold_left group_step line_numbers ([[]], None)).1
  else [].

(** [(start_line_number, end_line_number)] of a group among [n] lines;
    [group[0]] of an empty group is an [IndexError]. *)
Definition bounds (n : Z) (group : list Z) : outcome (Z * Z) :=
  match head group, last group with
  | Some first, Some final =>
      Ok (Z.max (first - padding_lines) 0, Z.min (final + padding_lines) (n - 1))
  | _, _ => Raise IndexError
  end.

Section Defs.
Context {C : Type} `{Coverage C}.

Record t := Make { _lines : list (LineComparison.t C) }.

Definition of_interest (line : LineComparison.t C) : bool :=
  bool_decide ((LineComparison.coverage line).1 ≠ (LineComparison.coverage line).2)
  || LineComparison.added line || LineComparison.removed line.

(** [enumerate(lines)] filtered by interest, counting from [idx]. *)
Fixpoint line_numbers_from (idx : Z) (lines : list (LineComparison.t C)) : list Z :=
  match lines with
  | [] => []
  | line :: rest =>
      if of_interest line then idx :: line_numbers_from (idx + 1) rest
      else line_numbers_from (idx + 1) rest
  end.

Definition line_numbers (lines : list (LineComparison.t C)) : list Z :=
  line_numbers_from 0 lines.

Fixpoint build (lines : list (LineComparison.t C)) (groups : list (list Z))
    : outcome (list t) :=
  match groups with
  | [] => Ok []
  | group :: rest =>
      let* (start_line_number, end_line_number) :=
        bounds (Z.of_nat (length lines)) group in
      let segment := Make (Py.slice lines start_line_number (end_line_number + 1)) in
      let* segments := build lines rest in
      Ok (segment :: segments)
  end.

(** [Segment.segments], on the [lines] of the file comparison. *)
Definition segments (lines : list (LineComparison.t C)) : outcome (list t) :=
  build lines (segmented_lines (line_numbers lines)).
(** The loop state of [header]. *)
Record header_state := HeaderState {
  hs_base_start : option Z;
  hs_head_start : option Z;
  num_removed : Z;
  num_added : Z;
  num_context : Z
}.

Definition header_step (st : header_state) (line : LineComparison.t C) : header_state :=
  let base_start :=
    match hs_base_start st, (LineComparison.number line).1 with
    | None, Some n => Some n
    | _, _ => hs_base_start st
    end in
  let head_start :=
    match hs_head_start st, (LineComparison.number line).2 with
    | None, Some n => Some n
    | _, _ => hs_head_start st
    end in
  if LineComparison.added line then
    HeaderState base_start head_start (num_removed st) (num_added st + 1) (num_context st)
  else if LineComparison.removed line then
    HeaderState base_start head_start (num_removed st + 1) (num_added st) (num_context st)
  else
    HeaderState base_start head_start (num_removed st) (num_added st) (num_context st + 1).

(** The tuple [(base_start or 0, num_context + num_removed, head_start or 0,
    num_context + num_added)]. *)
Definition header (self : t) : Z * Z * Z * Z :=
  let st := fold_left header_step (_lines self) (HeaderState None None 0 0 0) in
  (default 0 (hs_base_start st), num_context st + num_removed st,
   default 0 (hs_head_start st), num_context st + num_added st).

(** The loop returns at the first line that is neither added nor removed
    and whose two coverage classes differ. *)
Fixpoint unintended_in (lines : list (LineComparison.t C)) : bool :=
  match lines with
  | [] => false
  | line :: rest =>
      let head_coverage := (LineComparison.coverage line).1 in
      let base_coverage := (LineComparison.coverage line).2 in
      if negb (LineComparison.added line || LineComparison.removed line)
         && bool_decide (base_coverage <> head_coverage)
      then true
      else unintended_in rest
  end.

Definition has_unintended_changes (self : t) : bool := unintended_in (_lines self).
End Defs.
Arguments t C : clear implicits.
End Segment.

(** ** FileComparison *)

(** The per-file diff dictionary; a key that is missing is [None]. *)
Record DiffData := {
  dd_stats : option (Z * Z);
  dd_segments : option (list diff_segment);
  dd_before : option string;
  dd_totals : option Z
}.

(** Truth value of the dictionary: it has a key. *)
Definition DiffData_truthy (d : option DiffData) : bool :=
  match d with
  | Some d =>
      bool_decide (is_Some (dd_stats d)) || bool_decide (is_Some (dd_segments d))
      || bool_decide (is_Some (dd_before d)) || bool_decide (is_Some (dd_totals d))
  | None => false
  end.

Module FileComparison.
Section Defs.
Context {C : Type} `{Coverage C}.

Record t := Make {
  base_file : option (ReportFile C);
  head_file : option (ReportFile C);
  diff_data : option DiffData;
  src : list string;
  total_diff_length : Z;
  bypass_max_diff : bool;
  should_search_for_changes : option bool
}.

Definition __init__ (base_file head_file : option (ReportFile C))
    (diff_data : option DiffData) (src : list string) (bypass_max_diff : bool)
    (should_search_for_changes : option bool) : t :=
  let total_diff_length :=
    match diff_data with
    | Some d =>
        match dd_segments d with
        | Some (segment :: rest) =>
            fold_left Z.add (map (fun s => Z.of_nat (length (lines s))) rest)
                      (Z.of_nat (length (lines segment)))
        | _ => 0
        end
    | None => 0
    end in
  Make base_file head_file diff_data src total_diff_length bypass_max_diff
       should_search_for_changes.

(** The guard of [_calculated_changes_and_lines]: the file is traversed. *)
Definition applies_visitors (self : t) : bool :=
  DiffData_truthy (diff_data self) || Py.truthy (src self)
  || negb (bool_decide (should_search_for_changes self = Some false)).

(** The manager that [_calculated_changes_and_lines] builds. *)
Definition manager (self : t) : outcome FileComparisonTraverseManager.t :=
  FileComparisonTraverseManager.__init__
    (match head_file self with Some f => eof f | None => 0 end)
    (match base_file self with Some f => eof f | None => 0 end)
    (if DiffData_truthy (diff_data self) then
       match diff_data self with
       | Some d => default [] (dd_segments d)
       | None => []
       end
     else [])
    (src self).

Definition _calculated_changes_and_lines (fuel : nat) (self : t)
    : outcome (gmap string Z * list (LineComparison.t C)) :=
  let change_summary_visitor :=
    CreateChangeSummaryVisitor.__init__ (base_file self) (head_file self) in
  let create_lines_visitor :=
    CreateLineComparisonVisitor.__init__ (base_file self) (head_file self) in
  if applies_visitors self then
    let* m := manager self in
    let* (_, visitors) :=
      FileComparisonTraverseManager.apply fuel m
        (change_summary_visitor, create_lines_visitor) in
    Ok (CreateChangeSummaryVisitor.summary visitors.1,
        CreateLineComparisonVisitor.lines visitors.2)
  else
    Ok (CreateChangeSummaryVisitor.summary change_summary_visitor,
        CreateLineComparisonVisitor.lines create_lines_visitor).

Definition change_summary (fuel : nat) (self : t) : outcome (gmap string Z) :=
  map_outcome fst (_calculated_changes_and_lines fuel self).

(** [any(self.change_summary.values())]. *)
Definition any_values (summary : gmap string Z) : bool :=
  existsb (fun kv => negb (kv.2 =? 0)) (map_to_list summary).

Definition has_changes (fuel : nat) (self : t) : outcome bool :=
  map_outcome any_values (change_summary fuel self).

(** [None] inside the outcome is the null value of a truncated file. *)
Definition lines (fuel : nat) (self : t) : outcome (option (list (LineComparison.t C))) :=
  if (MAX_DIFF_SIZE <? total_diff_length self) && negb (bypass_max_diff self)
  then Ok None
  else map_outcome (fun r => Some r.2) (_calculated_changes_and_lines fuel self).

(** [enumerate(None)] is a [TypeError]. *)
Definition segments (fuel : nat) (self : t) : outcome (list (Segment.t C)) :=
  let* ls := lines fuel self in
  match ls with
  | Some ls => Segment.segments ls
  | None => Raise TypeError
  end.
End Defs.
Arguments t C : clear implicits.
End FileComparison.

(** ** Comparison.upload_commits *)

Module Comparison.

(** A row of the commit table, as far as the query reads it. *)
Record Commit := {
  commitid : string;
  repository : Z;
  deleted : option bool
}.

(** [queryset.filter(commitid__in=commit_ids, repository=repository)]. *)
Definition filter_commits (commit_ids : list string) (repo : Z)
    (queryset : list Commit) : list Commit :=
  filter (fun c => commitid c ∈ commit_ids /\ repository c = repo) queryset.

(** [queryset.exclude(deleted=True)]: a new queryset; the receiver is not
    changed. *)
Definition exclude_deleted (queryset : list Commit) : list Commit :=
  filter (fun c => deleted c <> Some true) queryset.

(** [git_commits] are the commit ids of the forward diff; [table] is
    [Commit.objects]. *)
Definition upload_commits (table : list Commit) (git_commits : list string)
    (base_repository : Z) : list Commit :=
  let commit_ids := git_commits in
  let commits_queryset := filter_commits commit_ids base_repository table in
  let _ := exclude_deleted commits_queryset in
  commits_queryset.

End Comparison.

(** ** PullRequestComparison: the cache of files with changes *)

Module PullRequestComparison.

(** What [json.loads] makes of the cached bytes. *)
Inductive json := JNull | JNames (names : list string).

(** What [redis.get(key)] does: it raises (a connection failure is a
    [RedisConnectionError]), or returns the bytes stored under the key
    ([None] when there are none, or they are empty). *)
Inductive cache_read :=
  | Raises (e : exn)
  | Returns (stored : option json).

(** The [try] block and its [except OSError] handler, which logs and
    falls through to return [None]. *)
Definition _files_with_changes (r : cache_read) : outcome (option (list string)) :=
  match r with
  | Returns (Some (JNames changes)) => Ok (Some changes)
  | Returns (Some JNull) => Ok None
  | Returns None => Ok None
  | Raises OSError => Ok None
  | Raises e => Raise e
  end.

Section Defs.
Context {C : Type}.

(** [file_comparison] is what [Comparison.get_file_comparison] built. *)
Definition get_file_comparison (r : cache_read) (file_name : string)
    (file_comparison : FileComparison.t C) : outcome (FileComparison.t C) :=
  let* files_with_changes := _files_with_changes r in
  let should_search_for_changes :=
    match files_with_changes with
    | Some names => Some (bool_decide (file_name ∈ names))
    | None => None
    end in
  Ok (FileComparison.Make
        (FileComparison.base_file file_comparison)
        (FileComparison.head_file file_comparison)
        (FileComparison.diff_data file_comparison)
        (FileComparison.src file_comparison)
        (FileComparison.total_diff_length file_comparison)
        (FileComparison.bypass_max_diff file_comparison)
        should_search_for_changes).
End Defs.

Section Files.
Context {C : Type} `{Coverage C}.

(** The truth value of a [Counter]: it has a key. *)
Definition counter_truthy (summary : gmap string Z) : bool :=
  bool_decide (summary <> ∅).

(** The list that [files] hands to [_set_files_with_changes_in_cache] once
    the sequence is exhausted. [yielded] is what [super().files] yields, each
    file comparison with its [name["head"]]. *)
Fixpoint files (fuel : nat) (yielded : list (string * FileComparison.t C))
    : outcome (list string) :=
  match yielded with
  | [] => Ok []
  | (head_name, file_comparison) :: rest =>
      let* summary := FileComparison.change_summary fuel file_comparison in
      let* files_with_changes := files fuel rest in
      Ok (if counter_truthy summary then head_name :: files_with_changes
          else files_with_changes)
  end.
End Files.

End PullRequestComparison.

(** ** ComparisonReport.compute_patch_per_file *)

Module ComparisonReport.

Record patch_coverage := PatchCoverage {
  hits : Z;
  misses : Z;
  partials : Z
}.

Definition count_line (patch : patch_coverage) (added_coverage : Z * string)
    : patch_coverage :=
  let type_coverage := added_coverage.2 in
  let patch1 :=
    if bool_decide (type_coverage = "h")
    then PatchCoverage (hits patch + 1) (misses patch) (partials patch) else patch in
  let patch2 :=
    if bool_decide (type_coverage = "m")
    then PatchCoverage (hits patch1) (misses patch1 + 1) (partials patch1) else patch1 in
  if bool_decide (type_coverage = "p")
  then PatchCoverage (hits patch2) (misses patch2) (partials patch2 + 1) else patch2.

(** [added_diff_coverage] is [file.get("added_diff_coverage", [])], a list
    of [[line number, type]] pairs. *)
Definition compute_patch_per_file (added_diff_coverage : list (Z * string))
    : option patch_coverage :=
  if Py.truthy added_diff_coverage
  then Some (fold_left count_line added_diff_coverage (PatchCoverage 0 0 0))
  else None.

End ComparisonReport.

(** * Reference definitions

    What the properties below are stated against: descriptions of what the
    code computes that do not follow its control flow, and sample inputs. *)

(** ** Traversals without segment and without source *)

Section IdleVisits.
Context {V : Type} `{Visitor V}.

(** The visitor calls of [n] steps without a line, from the cursors [(b, h)]. *)
Fixpoint idle_visits (n : nat) (b h : Z) (v : V) : V :=
  match n with
  | O => v
  | S n' => idle_visits n' (b + 1) (h + 1) (call (Some b) (Some h) None false v)
  end.

End IdleVisits.

(** The number of steps until both cursors are at their end-of-file offset. *)
Definition idle_steps (heof beof b h : Z) : nat :=
  Z.to_nat (Z.max (heof - h) (beof - b)).

(** ** Visits of a traversal, phase by phase *)

Section Visits.
Context {V : Type} `{Visitor V}.

(** The visitor calls for source lines read outside every segment, from the
    cursors [(b, h)], when no line begins with a plus or a minus sign. *)
Fixpoint source_visits (ls : list string) (b h : Z) (v : V) : V :=
  match ls with
  | [] => v
  | l :: rest => source_visits rest (b + 1) (h + 1) (call (Some b) (Some h) (Some l) false v)
  end.

(** The same when lines may begin with a plus sign (but none with a minus
    sign): such a line is visited as an added line, and the base cursor stays. *)
Fixpoint unremoved_source_visits (ls : list string) (b h : Z) (v : V) : V :=
  match ls with
  | [] => v
  | l :: rest =>
      unremoved_source_visits rest (if _is_added (Some l) then b else b + 1) (h + 1)
        (call (if _is_added (Some l) then None else Some b) (Some h) (Some l) false v)
  end.

(** The visitor calls for the lines of a hunk, from the cursors [(b, h)]. *)
Fixpoint hunk_visits (ls : list string) (b h : Z) (v : V) : V :=
  match ls with
  | [] => v
  | l :: rest =>
      let v' := call (if _is_added (Some l) then None else Some b)
                     (if _is_removed (Some l) then None else Some h)
                     (Some l) true v in
      if _is_added (Some l) then hunk_visits rest b (h + 1) v'
      else if _is_removed (Some l) then hunk_visits rest (b + 1) h v'
      else hunk_visits rest (b + 1) (h + 1) v'
  end.

End Visits.

(** The lines of a hunk that are lines of the base file, and of the head
    file. *)
Fixpoint base_lines (ls : list string) : Z :=
  match ls with
  | [] => 0
  | l :: rest => (if _is_added (Some l) then 0 else 1) + base_lines rest
  end.

Fixpoint head_lines (ls : list string) : Z :=
  match ls with
  | [] => 0
  | l :: rest => (if _is_removed (Some l) then 0 else 1) + head_lines rest
  end.

(** A line that is neither added nor removed. *)
Definition plain (l : string) : Prop :=
  _is_added (Some l) = false /\ _is_removed (Some l) = false.

(** ** Report lines *)

(** What a cell of [_lines] yields once it has been found. *)
Definition record_of {C : Type} (cell : stored_line C) : option (report_line C) :=
  match cell with
  | NoLine => None
  | Row l => Some l
  | Legacy decoded => Some decoded
  end.

(** ** File comparisons *)

(** The traversal of [_calculated_changes_and_lines], for one visitor on
    its own: the visitor as the traversal of the file leaves it, or as it
    was built when the file is not traversed. *)
Definition traversal {C : Type} `{Coverage C} {V : Type} `{Visitor V}
    (fuel : nat) (self : FileComparison.t C) (v : V) : outcome V :=
  if FileComparison.applies_visitors self then
    let* m := FileComparison.manager self in
    let* (_, v') := FileComparisonTraverseManager.apply fuel m v in
    Ok v'
  else Ok v.

(** The number of diff lines of a list of segments. *)
Definition sum_of_line_counts (segs : list diff_segment) : Z :=
  foldr (fun s acc => Z.of_nat (length (lines s)) + acc) 0 segs.

(** ** Groups of line numbers *)

(** Every two neighbours of a list are related by [R]. *)
Fixpoint adjacent {A} (R : A -> A -> Prop) (l : list A) : Prop :=
  match l with
  | a :: (b :: _) as rest => R a b /\ adjacent R rest
  | _ => True
  end.

(** Two successive indices of interest of one group. *)
Definition near (a b : Z) : Prop := b - a <= Segment.line_distance.

(** Two successive groups: from the last index of the one to the first index
    of the other the gap is larger than the line distance. *)
Definition far_apart (g1 g2 : list Z) : Prop :=
  exists a b, last g1 = Some a /\ head g2 = Some b /\ Segment.line_distance < b - a.

(** The groups, by recursion on the line numbers: the rest of the group
    that [prev] is in, and the groups after it. *)
Fixpoint split_run (prev : Z) (xs : list Z) : list Z * list (list Z) :=
  match xs with
  | [] => ([], [])
  | x :: xs' =>
      let '(run, groups) := split_run x xs' in
      if x - prev <=? Segment.line_distance then (x :: run, groups)
      else ([], (x :: run) :: groups)
  end.

(** The bounds of a group that is not empty. *)
Definition group_bounds (n : Z) (group : list Z) : Z * Z :=
  (Z.max (default 0 (head group) - Segment.padding_lines) 0,
   Z.min (default 0 (last group) + Segment.padding_lines) (n - 1)).

(** The segment cut out of [lines] for a group. *)
Definition segment_of {C : Type} (lines : list (LineComparison.t C)) (group : list Z)
    : Segment.t C :=
  let start_line_number := (group_bounds (Z.of_nat (length lines)) group).1 in
  let end_line_number := (group_bounds (Z.of_nat (length lines)) group).2 in
  Segment.Make (Py.slice lines start_line_number (end_line_number + 1)).

(** ** Invariants of what a traversal builds *)

(** A row as the traversal builds it. *)
Definition well_numbered {C : Type} (row : LineComparison.t C) : Prop :=
  (LineComparison.base_ln row = None <-> LineComparison.added row = true)
  /\ (LineComparison.head_ln row = None <-> LineComparison.removed row = true)
  /\ ~ (LineComparison.added row = true /\ LineComparison.removed row = true)
  /\ LineComparison.number row = (LineComparison.base_ln row, LineComparison.head_ln row).

(** The buckets of a change summary: only the three, and they cancel out. *)
Definition balanced (s : gmap string Z) : Prop :=
  (forall k, k <> "hits" -> k <> "misses" -> k <> "partials" -> s !! k = None)
  /\ CreateChangeSummaryVisitor.count s "hits"
     + CreateChangeSummaryVisitor.count s "misses"
     + CreateChangeSummaryVisitor.count s "partials" = 0.

(** ** Counting *)

(** The number of rows that satisfy [p]. *)
Definition count_rows {A} (p : A -> bool) (rows : list A) : Z :=
  Z.of_nat (length (List.filter p rows)).

(** The first number that [proj] finds in the rows, or 0. *)
Definition first_number {A} (proj : A -> option Z) (rows : list A) : Z :=
  default 0 (head (omap proj rows)).

(** The number of added-line entries of a type. *)
Definition count_type (t : string) (entries : list (Z * string)) : Z :=
  Z.of_nat (length (filter (fun e => e.2 = t) entries)).

(** ** Sample inputs *)

(** The segment of an added file: header [[0, 0, 1, 3]]. *)
Definition added_file_segment : diff_segment :=
  DiffSegment (Header (HInt 0) (HInt 0) (HInt 1) (HInt 3)) ["+a"; "+b"; " c"].

(** A base file with one hit line, and a head file where that line is a
    miss. *)
Definition one_hit_line : ReportFile Z := {| _lines := [Row (ReportLine 1 [])]; eof := 2 |}.
Definition one_miss_line : ReportFile Z := {| _lines := [Row (ReportLine 0 [])]; eof := 2 |}.

(** Two lines outside every diff: the first goes from miss to hit, the
    second from hit to miss. *)
Definition miss_then_hit : ReportFile Z :=
  {| _lines := [Row (ReportLine 0 []); Row (ReportLine 1 [])]; eof := 3 |}.
Definition hit_then_miss : ReportFile Z :=
  {| _lines := [Row (ReportLine 1 []); Row (ReportLine 0 [])]; eof := 3 |}.

(** A file of 42 unchanged source lines, hit in the base and in the head,
    but for the lines at the indices 5 and 40, which are misses in the head. *)
Definition synthetic_line (idx : Z) : LineComparison.t Z :=
  LineComparison.Make
    (Some (ReportLine 1 []))
    (Some (ReportLine (if (idx =? 5) || (idx =? 40) then 0 else 1) []))
    (Some (idx + 1)) (Some (idx + 1)) " code" false.

Definition synthetic_file : list (LineComparison.t Z) :=
  map (fun i => synthetic_line (Z.of_nat i)) (seq 0 42).

(** * Properties *)

(** ** The traversal loop *)

Section TraversalFacts.
Import FileComparisonTraverseManager.
Context {V : Type} `{Visitor V}.

Lemma apply_unfold (fuel : nat) (self : t) (v : V) :
  apply (S fuel) self v =
  if traverse_finished self then Ok (self, v)
  else let* (self', v') := step self v in apply fuel self' v'.
Proof. reflexivity. Qed.

Lemma apply_finished (fuel : nat) (self : t) (v : V) :
  traverse_finished self = true -> apply fuel self v = Ok (self, v).
Proof. intros Hfin. destruct fuel; simpl; rewrite Hfin; reflexivity. Qed.

(** A traversal that is done within some fuel is done within any larger one. *)
Lemma apply_more_fuel (n k : nat) (self : t) (v : V) (r : t * V) :
  apply n self v = Ok r -> apply (n + k) self v = Ok r.
Proof.
  revert self v. induction n as [|n IH]; intros self v.
  - simpl. destruct (traverse_finished self) eqn:Hfin; [|discriminate].
    intros Hr. rewrite apply_finished; assumption.
  - change (S n + k)%nat with (S (n + k)). rewrite !apply_unfold.
    destruct (traverse_finished self); [trivial|].
    destruct (step self v) as [[self' v']| |]; simpl; [apply IH|discriminate..].
Qed.

(** Every iteration of the loop moves a cursor by one, and none backwards. *)
Lemma step_moves_a_cursor (self self' : t) (v v' : V) :
  step self v = Ok (self', v') ->
  (base_ln self' = base_ln self + 1 \/ head_ln self' = head_ln self + 1)
  /\ base_ln self <= base_ln self' /\ head_ln self <= head_ln self'.
Proof.
  unfold step, pop_line.
  destruct (traversing_diff self) as [[|]| |]; cbn [bind]; try discriminate.
  - destruct (segments self) as [|seg rest]; [discriminate|].
    destruct (lines seg) as [|l ls]; [discriminate|]. cbn [bind].
    destruct (traversing_diff _); cbn [bind]; try discriminate.
    intros [= <- _]. unfold advance, drop_done.
    destruct (_is_added (Some l)), (_is_removed (Some l)); cbn;
      destruct (Py.truthy ls); cbn; lia.
  - destruct (Py.truthy (src self)).
    + destruct (Py.index (src self) (head_ln self - 1)) as [l|]; [|discriminate].
      cbn [bind]. destruct (traversing_diff self); cbn [bind]; try discriminate.
      intros [= <- _]. unfold advance, drop_done.
      destruct (_is_added (Some l)), (_is_removed (Some l)); cbn;
        destruct (segments self) as [|seg rest]; cbn;
        try destruct (Py.truthy (lines seg)); cbn; lia.
    + cbn [bind]. destruct (traversing_diff self); cbn [bind]; try discriminate.
      intros [= <- _]. unfold advance, drop_done. cbn.
      destruct (segments self) as [|seg rest]; cbn;
        try destruct (Py.truthy (lines seg)); cbn; lia.
Qed.

(** With neither segment nor source the loop body calls the visitors with
    no line and moves both cursors by one. *)
Lemma step_idle (heof beof b h : Z) (v : V) :
  step (Manager heof beof [] [] b h) v =
  Ok (Manager heof beof [] [] (b + 1) (h + 1), call (Some b) (Some h) None false v).
Proof. reflexivity. Qed.

Lemma finished_idle (heof beof b h : Z) :
  traverse_finished (Manager heof beof [] [] b h) = (heof <=? h) && (beof <=? b).
Proof. reflexivity. Qed.

Lemma apply_idle (fuel : nat) (heof beof b h : Z) (v : V) :
  (idle_steps heof beof b h <= fuel)%nat ->
  apply fuel (Manager heof beof [] [] b h) v =
  Ok (Manager heof beof [] []
        (b + Z.of_nat (idle_steps heof beof b h))
        (h + Z.of_nat (idle_steps heof beof b h)),
      idle_visits (idle_steps heof beof b h) b h v).
Proof.
  revert b h v. induction fuel as [|fuel IH]; intros b h v Hfuel.
  - assert (Hz : idle_steps heof beof b h = O) by lia.
    rewrite Hz. unfold idle_steps in Hz.
    rewrite apply_finished by (rewrite finished_idle; lia).
    simpl. rewrite !Z.add_0_r. reflexivity.
  - destruct ((heof <=? h) && (beof <=? b)) eqn:Hfin.
    + assert (Hz : idle_steps heof beof b h = O) by (unfold idle_steps; lia).
      rewrite Hz. rewrite apply_finished by (rewrite finished_idle; exact Hfin).
      simpl. rewrite !Z.add_0_r. reflexivity.
    + assert (Hs : idle_steps heof beof b h = S (idle_steps heof beof (b + 1) (h + 1)))
        by (unfold idle_steps; lia).
      rewrite apply_unfold, finished_idle, Hfin, step_idle.
      cbn [bind]. rewrite IH by lia.
      rewrite Hs. cbn [idle_visits]. do 3 f_equal; lia.
Qed.

(** A source line that begins with a minus sign, outside every segment:
    the loop body moves the base cursor only. *)
Lemma step_minus_source_line (heof beof b : Z) (rest : string) (v : V) :
  step (Manager heof beof [] [String "-" rest] b 1) v =
  Ok (Manager heof beof [] [String "-" rest] (b + 1) 1,
      call (Some b) None (Some (String "-" rest)) false v).
Proof. reflexivity. Qed.

Lemma apply_minus_source_line (fuel : nat) (heof beof b : Z) (rest : string) (v : V) :
  apply fuel (Manager heof beof [] [String "-" rest] b 1) v = OutOfFuel.
Proof.
  revert b v. induction fuel as [|fuel IH]; intros b v; [reflexivity|].
  rewrite apply_unfold.
  change (traverse_finished (Manager heof beof [] [String "-" rest] b 1)) with false.
  rewrite step_minus_source_line. cbn [bind]. apply IH.
Qed.
End TraversalFacts.

(** The manager does not depend on what the visitors do: a traversal with
    two visitors is, for each of them, the traversal with that one alone. *)
Section TwoVisitors.
Import FileComparisonTraverseManager.
Context {V1 V2 : Type} `{Visitor V1, Visitor V2}.

Lemma apply_fst (fuel : nat) (self : t) (v1 : V1) (v2 : V2) :
  map_outcome (fun r => (r.1, r.2.1)) (apply fuel self (v1, v2)) = apply fuel self v1.
Proof.
  revert self v1 v2. induction fuel as [|fuel IH]; intros self v1 v2.
  - simpl. destruct (traverse_finished self); reflexivity.
  - rewrite !apply_unfold. destruct (traverse_finished self); [reflexivity|].
    unfold step. destruct (pop_line self) as [[lv self1]| |]; try reflexivity.
    cbn [bind]. destruct (traversing_diff self1); try reflexivity.
    cbn [bind]. apply IH.
Qed.

Lemma apply_snd (fuel : nat) (self : t) (v1 : V1) (v2 : V2) :
  map_outcome (fun r => (r.1, r.2.2)) (apply fuel self (v1, v2)) = apply fuel self v2.
Proof.
  revert self v1 v2. induction fuel as [|fuel IH]; intros self v1 v2.
  - simpl. destruct (traverse_finished self); reflexivity.
  - rewrite !apply_unfold. destruct (traverse_finished self); [reflexivity|].
    unfold step. destruct (pop_line self) as [[lv self1]| |]; try reflexivity.
    cbn [bind]. destruct (traversing_diff self1); try reflexivity.
    cbn [bind]. apply IH.
Qed.

Lemma idle_visits_pair (n : nat) (b h : Z) (v1 : V1) (v2 : V2) :
  idle_visits n b h (v1, v2) = (idle_visits n b h v1, idle_visits n b h v2).
Proof. revert b h v1 v2. induction n as [|n IH]; intros; simpl; [reflexivity|apply IH]. Qed.
End TwoVisitors.

(** ** Termination of the traversal (C4) *)

(** C4, decided against the code: the loop of [apply] does not always
    terminate. With no segment and a source whose first line begins with a
    minus sign (a Markdown list item, say), the line is read from the source,
    taken for a removed line, and only the base cursor moves; the head cursor
    stays at 1, so the traversal is never finished, whatever the fuel, the
    end-of-file offsets and the visitors. *)
Theorem apply_never_finishes_on_minus_source_line :
  forall (V : Type) (HV : Visitor V) (head_file_eof base_file_eof : Z)
         (rest : string) (visitors : V) (fuel : nat),
  exists m,
    FileComparisonTraverseManager.__init__ head_file_eof base_file_eof []
      [String "-" rest] = Ok m
    /\ FileComparisonTraverseManager.traverse_finished m = false
    /\ FileComparisonTraverseManager.apply fuel m visitors = OutOfFuel.
Proof.
  intros V HV heof beof rest v fuel. eexists. split; [reflexivity|]. split; [reflexivity|].
  apply apply_minus_source_line.
Qed.

(** ** Report-line lookup (C5) *)

Section GetLine.
Import FileComparisonVisitor.
Context {C : Type}.

Lemma _get_line_index (rf : ReportFile C) (ln : Z) :
  _get_line (Some rf) (Some ln) = Py.index (_lines rf) (ln - 1) ≫= record_of.
Proof.
  unfold _get_line. destruct (Py.index (_lines rf) (ln - 1)) as [[]|]; reflexivity.
Qed.

Lemma index_in_range {A} (l : list A) (i : Z) :
  0 <= i < Z.of_nat (length l) -> Py.index l i = l !! Z.to_nat i.
Proof.
  intros Hi. unfold Py.index.
  replace (0 <=? i) with true by lia. replace (i <? Z.of_nat (length l)) with true by lia.
  reflexivity.
Qed.

Lemma index_negative {A} (l : list A) (i : Z) :
  - Z.of_nat (length l) <= i < 0 -> Py.index l i = l !! Z.to_nat (Z.of_nat (length l) + i).
Proof.
  intros Hi. unfold Py.index.
  replace (0 <=? i) with false by lia. simpl.
  replace (- Z.of_nat (length l) <=? i) with true by lia. replace (i <? 0) with true by lia.
  reflexivity.
Qed.

Lemma index_out_of_range {A} (l : list A) (i : Z) :
  Z.of_nat (length l) <= i \/ i < - Z.of_nat (length l) -> Py.index l i = None.
Proof.
  intros Hi. unfold Py.index.
  destruct (0 <=? i) eqn:E1; simpl.
  - replace (i <? Z.of_nat (length l)) with false by lia.
    replace (i <? 0) with false by lia. rewrite andb_false_r. reflexivity.
  - replace (- Z.of_nat (length l) <=? i) with false by lia. reflexivity.
Qed.

(** C5, decided against the code: the lookup is null for an absent file,
    an absent line number, and an index above the range or at most minus
    the length; it is the stored record for an index within 1..length.
    For a line number in (-length, 0] it is not null: Python reads the
    list from its end, so line number 0 yields the record of the last
    line of the file. *)
Theorem _get_line_wraps_around_below_one :
  (forall (l1 l2 : report_line C),
     _get_line (Some {| _lines := [Row l1; Row l2]; eof := 3 |}) (Some 0) = Some l2)
  /\ (forall ln, _get_line (C:=C) None ln = None)
  /\ (forall rf, _get_line (C:=C) rf None = None)
  /\ (forall (rf : ReportFile C) ln,
        Z.of_nat (length (_lines rf)) < ln \/ ln <= - Z.of_nat (length (_lines rf)) ->
        _get_line (Some rf) (Some ln) = None)
  /\ (forall (rf : ReportFile C) ln,
        1 <= ln <= Z.of_nat (length (_lines rf)) ->
        _get_line (Some rf) (Some ln) = _lines rf !! Z.to_nat (ln - 1) ≫= record_of)
  /\ (forall (rf : ReportFile C) ln,
        - Z.of_nat (length (_lines rf)) < ln <= 0 ->
        _get_line (Some rf) (Some ln) =
        _lines rf !! Z.to_nat (Z.of_nat (length (_lines rf)) + ln - 1) ≫= record_of).
Proof.
  split; [reflexivity|]. split; [intros [ln|]; reflexivity|].
  split; [intros [rf|]; reflexivity|]. split; [|split].
  - intros rf ln Hln. rewrite _get_line_index, index_out_of_range by lia. reflexivity.
  - intros rf ln Hln. rewrite _get_line_index, index_in_range by lia. reflexivity.
  - intros rf ln Hln. rewrite _get_line_index, index_negative by lia.
    do 3 f_equal. lia.
Qed.
End GetLine.

(** ** Commits with uploads (C8) *)

Section UploadCommits.
Import Comparison.

Lemma upload_commits_filter (table : list Commit) (git_commits : list string) (repo : Z) :
  upload_commits table git_commits repo = filter_commits git_commits repo table.
Proof. reflexivity. Qed.

(** C8, decided against the code: the query keeps every stored commit of
    the base commit's repository whose id is in the forward diff; the
    result of [exclude(deleted=True)] is dropped, so a commit marked
    deleted is returned like any other. *)
Theorem upload_commits_keeps_deleted_commits :
  (forall table git_commits repo c,
     c ∈ upload_commits table git_commits repo <->
     c ∈ table /\ commitid c ∈ git_commits /\ repository c = repo)
  /\ (let gone := {| commitid := "abc123"; repository := 7; deleted := Some true |} in
      upload_commits [gone] ["abc123"] 7 = [gone]
      /\ exclude_deleted (upload_commits [gone] ["abc123"] 7) = []).
Proof.
  split.
  - intros table git repo c. rewrite upload_commits_filter. unfold filter_commits.
    rewrite list_elem_of_filter. tauto.
  - split; reflexivity.
Qed.
End UploadCommits.

(** ** The cache of files with changes (C9) *)

Section FilesWithChanges.
Import PullRequestComparison.
Context {C : Type} `{Coverage C}.

(** The handled path: when reading the cache raises [OSError],
    [_files_with_changes] is null and raises nothing; [get_file_comparison]
    then leaves [should_search_for_changes] null, and a file comparison with
    a null flag is traversed. *)
Lemma os_error_falls_back_to_traversal :
  forall (file_name : string) (file_comparison : FileComparison.t C),
    _files_with_changes (Raises OSError) = Ok None
    /\ exists fc,
         get_file_comparison (Raises OSError) file_name file_comparison = Ok fc
         /\ FileComparison.should_search_for_changes fc = None
         /\ FileComparison.applies_visitors fc = true
         /\ FileComparison.manager fc = FileComparison.manager file_comparison.
Proof.
  intros file_name fc. split; [reflexivity|].
  eexists. split; [reflexivity|]. split; [reflexivity|]. split; [|reflexivity].
  unfold FileComparison.applies_visitors. simpl.
  apply orb_true_r.
Qed.

(** C9, decided against the code: a connection failure of the cache is not
    caught. The redis client reports it as
    [redis.exceptions.ConnectionError]; the handler of [_files_with_changes]
    names [OSError], so the error leaves [_files_with_changes] and then
    [get_file_comparison], and no file comparison is built. [OSError] is the
    only exception that [_files_with_changes] turns into null. *)
Theorem cache_connection_error_is_not_caught :
  forall (file_name : string) (file_comparison : FileComparison.t C),
    _files_with_changes (Raises RedisConnectionError) = Raise RedisConnectionError
    /\ get_file_comparison (Raises RedisConnectionError) file_name file_comparison
       = Raise RedisConnectionError
    /\ _files_with_changes (Raises OSError) = Ok None
    /\ (forall e, _files_with_changes (Raises e) = Ok None <-> e = OSError)
    /\ (forall e, e <> OSError ->
          get_file_comparison (Raises e) file_name file_comparison = Raise e).
Proof.
  intros file_name fc.
  split; [reflexivity|]. split; [reflexivity|]. split; [reflexivity|]. split.
  - intros e. destruct e; cbn; split; intros Hx; first [reflexivity | discriminate].
  - intros e He. destruct e; first [reflexivity | contradiction].
Qed.
End FilesWithChanges.

(** ** The change-summary visitor (C2) *)

Section ChangeSummaryVisitor.
Import FileComparisonVisitor CreateChangeSummaryVisitor.
Context {C : Type} `{Coverage C}.

Lemma is_changed_source_line_spec (value : option string) :
  is_changed_source_line value = true <->
  exists rest, value = Some (String "+" rest) \/ value = Some (String "-" rest).
Proof.
  destruct value as [[|c rest]|]; simpl.
  - split; [discriminate|]. intros [r [Hr|Hr]]; discriminate.
  - rewrite orb_true_iff, !Ascii.eqb_eq. split.
    + intros [->| ->]; exists rest; auto.
    + intros [r [Hr|Hr]]; injection Hr as -> _; auto.
  - split; [discriminate|]. intros [r [Hr|Hr]]; discriminate.
Qed.

Lemma coverage_type_map_inj (a b : LineType) :
  coverage_type_map a = coverage_type_map b -> a = b.
Proof. destruct a, b; simpl; intros Hab; first [reflexivity | discriminate]. Qed.

(** The two bucket updates, read back through [count]. *)
Lemma _update_summary_counts (base_line head_line : report_line C) (s : gmap string Z) :
  let kb := coverage_type_map (line_type (coverage0 base_line)) in
  let kh := coverage_type_map (line_type (coverage0 head_line)) in
  kb <> kh ->
  count (_update_summary base_line head_line s) kb = count s kb - 1
  /\ count (_update_summary base_line head_line s) kh = count s kh + 1
  /\ forall k, k <> kb -> k <> kh -> _update_summary base_line head_line s !! k = s !! k.
Proof.
  intros kb kh Hne. unfold _update_summary, count. fold kb kh.
  split; [|split].
  - rewrite lookup_insert_ne, lookup_insert_eq by congruence. reflexivity.
  - rewrite lookup_insert_eq. simpl. rewrite lookup_insert_ne by congruence. reflexivity.
  - intros k Hkb Hkh. rewrite !lookup_insert_ne by congruence. reflexivity.
Qed.
End ChangeSummaryVisitor.

(** C2: the change-summary visitor leaves its summary as it is on a line
    whose value begins with a plus or a minus sign, on a line with no base or
    no head report line, and on a line whose two coverage classes are equal;
    on every other line the bucket of the base class goes down by one, the
    bucket of the head class goes up by one and no other bucket changes. From
    an empty summary a base miss / head hit line gives misses -1, hits +1. *)
Theorem change_summary_visitor_call :
  forall (C : Type) (HC : Coverage C) (self : CreateChangeSummaryVisitor.t C)
         (base_ln head_ln : option Z) (value : option string) (is_diff : bool),
    let self' := CreateChangeSummaryVisitor.__call__ base_ln head_ln value is_diff self in
    let base_line :=
      FileComparisonVisitor._get_line (CreateChangeSummaryVisitor.base_file self) base_ln in
    let head_line :=
      FileComparisonVisitor._get_line (CreateChangeSummaryVisitor.head_file self) head_ln in
    ((exists rest, value = Some (String "+" rest) \/ value = Some (String "-" rest)) ->
     self' = self)
    /\ (base_line = None \/ head_line = None -> self' = self)
    /\ (forall bl hl, base_line = Some bl -> head_line = Some hl ->
          line_type (coverage0 bl) = line_type (coverage0 hl) -> self' = self)
    /\ (forall bl hl,
          ~ (exists rest, value = Some (String "+" rest) \/ value = Some (String "-" rest)) ->
          base_line = Some bl -> head_line = Some hl ->
          line_type (coverage0 bl) <> line_type (coverage0 hl) ->
          let kb := CreateChangeSummaryVisitor.coverage_type_map (line_type (coverage0 bl)) in
          let kh := CreateChangeSummaryVisitor.coverage_type_map (line_type (coverage0 hl)) in
          let s := CreateChangeSummaryVisitor.summary self in
          let s' := CreateChangeSummaryVisitor.summary self' in
          CreateChangeSummaryVisitor.count s' kb = CreateChangeSummaryVisitor.count s kb - 1
          /\ CreateChangeSummaryVisitor.count s' kh = CreateChangeSummaryVisitor.count s kh + 1
          /\ (forall k, k <> kb -> k <> kh -> s' !! k = s !! k)
          /\ (line_type (coverage0 bl) = miss -> line_type (coverage0 hl) = hit -> s = ∅ ->
              s' = {[ "misses" := -1; "hits" := 1 ]})).
Proof.
  intros C HC self base_ln head_ln value is_diff self' base_line head_line.
  unfold self', CreateChangeSummaryVisitor.__call__, FileComparisonVisitor._get_lines.
  fold base_line head_line.
  split; [|split; [|split]].
  - intros Hv. apply is_changed_source_line_spec in Hv. rewrite Hv. reflexivity.
  - intros Hnone. destruct (CreateChangeSummaryVisitor.is_changed_source_line value);
      [reflexivity|].
    destruct Hnone as [-> | ->]; [reflexivity|]. destruct base_line; reflexivity.
  - intros bl hl -> -> Heq.
    destruct (CreateChangeSummaryVisitor.is_changed_source_line value); [reflexivity|].
    destruct (decide _); [reflexivity|contradiction].
  - intros bl hl Hv -> -> Hne.
    destruct (CreateChangeSummaryVisitor.is_changed_source_line value) eqn:Hc.
    { exfalso. apply Hv. apply is_changed_source_line_spec. exact Hc. }
    destruct (decide _) as [Heq|_]; [contradiction|].
    cbn [CreateChangeSummaryVisitor.summary].
    assert (Hk : CreateChangeSummaryVisitor.coverage_type_map (line_type (coverage0 bl))
                 <> CreateChangeSummaryVisitor.coverage_type_map (line_type (coverage0 hl)))
      by (intros Hk; apply Hne, coverage_type_map_inj, Hk).
    destruct (_update_summary_counts bl hl (CreateChangeSummaryVisitor.summary self) Hk)
      as (H1 & H2 & H3).
    split; [exact H1|]. split; [exact H2|]. split; [exact H3|].
    intros Hm Hh Hs. unfold CreateChangeSummaryVisitor._update_summary.
    rewrite Hm, Hh, Hs. reflexivity.
Qed.

(** ** The file comparison: what is traversed, and by whom *)

Section FileTraversal.
Import FileComparisonTraverseManager.
Context {C : Type} `{Coverage C}.

Lemma change_summary_traversal (fuel : nat) (self : FileComparison.t C) :
  FileComparison.change_summary fuel self =
  map_outcome CreateChangeSummaryVisitor.summary
    (traversal fuel self
       (CreateChangeSummaryVisitor.__init__
          (FileComparison.base_file self) (FileComparison.head_file self))).
Proof.
  unfold FileComparison.change_summary, FileComparison._calculated_changes_and_lines,
    traversal.
  destruct (FileComparison.applies_visitors self); [|reflexivity].
  destruct (FileComparison.manager self) as [m| |]; try reflexivity.
  cbn [bind map_outcome].
  set (csv := CreateChangeSummaryVisitor.__init__ _ _).
  set (clv := CreateLineComparisonVisitor.__init__ _ _).
  rewrite <- (apply_fst fuel m csv clv).
  destruct (apply fuel m (csv, clv)) as [[m' [a b]]| |]; reflexivity.
Qed.

Lemma calculated_lines_traversal (fuel : nat) (self : FileComparison.t C) :
  map_outcome snd (FileComparison._calculated_changes_and_lines fuel self) =
  map_outcome CreateLineComparisonVisitor.lines
    (traversal fuel self
       (CreateLineComparisonVisitor.__init__
          (FileComparison.base_file self) (FileComparison.head_file self))).
Proof.
  unfold FileComparison._calculated_changes_and_lines, traversal.
  destruct (FileComparison.applies_visitors self); [|reflexivity].
  destruct (FileComparison.manager self) as [m| |]; try reflexivity.
  cbn [bind map_outcome].
  set (csv := CreateChangeSummaryVisitor.__init__ _ _).
  set (clv := CreateLineComparisonVisitor.__init__ _ _).
  rewrite <- (apply_snd fuel m csv clv).
  destruct (apply fuel m (csv, clv)) as [[m' [a b]]| |]; reflexivity.
Qed.

Lemma fold_left_add (l : list Z) (a : Z) :
  fold_left Z.add l a = a + foldr Z.add 0 l.
Proof.
  revert a. induction l as [|x l IH]; intros a; simpl; [lia|]. rewrite IH. lia.
Qed.

Lemma total_diff_length_sum base_file head_file diff_data src bypass ssfc :
  FileComparison.total_diff_length
    (FileComparison.__init__ (C:=C) base_file head_file diff_data src bypass ssfc) =
  match diff_data with
  | Some d => sum_of_line_counts (default [] (dd_segments d))
  | None => 0
  end.
Proof.
  simpl. destruct diff_data as [d|]; [|reflexivity].
  destruct (dd_segments d) as [[|seg rest]|]; try reflexivity.
  simpl. rewrite fold_left_add. f_equal.
  induction rest as [|s rest IH]; simpl; [reflexivity|]. rewrite IH. reflexivity.
Qed.

Lemma sum_of_line_counts_nonneg (segs : list diff_segment) : 0 <= sum_of_line_counts segs.
Proof. induction segs as [|s segs IH]; simpl; lia. Qed.

(** No-line visits leave the line visitor as it is, and the summary
    visitor too when it lacks one of the two report files. *)
Lemma idle_visits_lines (n : nat) (b h : Z) (v : CreateLineComparisonVisitor.t C) :
  idle_visits n b h v = v.
Proof. revert b h. induction n as [|n IH]; intros b h; simpl; [reflexivity|apply IH]. Qed.

Lemma idle_visits_summary_absent (n : nat) (b h : Z) (v : CreateChangeSummaryVisitor.t C) :
  CreateChangeSummaryVisitor.base_file v = None
  \/ CreateChangeSummaryVisitor.head_file v = None ->
  idle_visits n b h v = v.
Proof.
  intros Habs. revert b h. induction n as [|n IH]; intros b h; simpl; [reflexivity|].
  replace (call (Some b) (Some h) None false v) with v; [apply IH|].
  unfold call, CreateChangeSummaryVisitor.visitor, CreateChangeSummaryVisitor.__call__.
  simpl. unfold FileComparisonVisitor._get_lines.
  destruct Habs as [-> | ->]; simpl; [reflexivity|].
  destruct (FileComparisonVisitor._get_line _ _); reflexivity.
Qed.
End FileTraversal.

(** ** Truncation of large diffs (C3) *)

(** C3: the total diff length is the sum of the segments' line counts. When
    it exceeds 170 and the bypass flag is off, [lines] is null (whatever the
    traversal would do), the file is traversed with all the segments of its
    diff, and [change_summary] is the summary the change-summary visitor
    holds after that traversal. When the length is at most 170 or the bypass
    flag is on, [lines] is the list the line-comparison visitor holds after
    the traversal. *)
Theorem lines_truncated_change_summary_not :
  forall (C : Type) (HC : Coverage C) (base_file head_file : option (ReportFile C))
         (diff_data : option DiffData) (src : list string) (bypass_max_diff : bool)
         (should_search_for_changes : option bool) (fuel : nat),
    let fc := FileComparison.__init__ base_file head_file diff_data src bypass_max_diff
                should_search_for_changes in
    FileComparison.total_diff_length fc =
      match diff_data with
      | Some d => sum_of_line_counts (default [] (dd_segments d))
      | None => 0
      end
    /\ (170 < FileComparison.total_diff_length fc -> bypass_max_diff = false ->
        FileComparison.lines fuel fc = Ok None
        /\ exists d segs,
             diff_data = Some d /\ dd_segments d = Some segs
             /\ FileComparison.applies_visitors fc = true
             /\ FileComparison.manager fc =
                FileComparisonTraverseManager.__init__
                  (match head_file with Some f => eof f | None => 0 end)
                  (match base_file with Some f => eof f | None => 0 end)
                  segs src)
    /\ FileComparison.change_summary fuel fc =
       map_outcome CreateChangeSummaryVisitor.summary
         (traversal fuel fc (CreateChangeSummaryVisitor.__init__ base_file head_file))
    /\ (FileComparison.total_diff_length fc <= 170 \/ bypass_max_diff = true ->
        FileComparison.lines fuel fc =
        map_outcome (fun v => Some (CreateLineComparisonVisitor.lines v))
          (traversal fuel fc (CreateLineComparisonVisitor.__init__ base_file head_file))).
Proof.
  intros C HC base_file head_file diff_data src bypass ssfc fuel fc.
  split; [apply total_diff_length_sum|]. split; [|split].
  - intros Hbig ->. split.
    + unfold FileComparison.lines. unfold MAX_DIFF_SIZE.
      replace (170 <? FileComparison.total_diff_length fc) with true by lia. reflexivity.
    + unfold fc in Hbig. rewrite total_diff_length_sum in Hbig.
      destruct diff_data as [d|]; [|lia].
      destruct (dd_segments d) as [segs|] eqn:Hsegs; [|simpl in Hbig; lia].
      exists d, segs. split; [reflexivity|]. split; [exact Hsegs|].
      assert (Ht : DiffData_truthy (Some d) = true).
      { simpl. rewrite Hsegs. rewrite (bool_decide_eq_true_2 (is_Some (Some segs))) by eauto.
        rewrite orb_true_r. reflexivity. }
      split.
      * unfold FileComparison.applies_visitors, fc. cbn [FileComparison.diff_data FileComparison.__init__].
        rewrite Ht. reflexivity.
      * unfold FileComparison.manager, fc.
        cbn [FileComparison.diff_data FileComparison.__init__ FileComparison.head_file
             FileComparison.base_file FileComparison.src].
        rewrite Ht, Hsegs. reflexivity.
  - apply (change_summary_traversal fuel fc).
  - intros Hsmall. unfold FileComparison.lines.
    replace ((MAX_DIFF_SIZE <? FileComparison.total_diff_length fc)
             && negb (FileComparison.bypass_max_diff fc)) with false.
    + pose proof (calculated_lines_traversal fuel fc) as Hl.
      change (FileComparison.base_file fc) with base_file in Hl.
      change (FileComparison.head_file fc) with head_file in Hl.
      destruct (FileComparison._calculated_changes_and_lines fuel fc) as [[s l]| |];
        destruct (traversal fuel fc (CreateLineComparisonVisitor.__init__ base_file head_file))
          as [v| |]; cbn [map_outcome bind snd] in Hl |- *; congruence.
    + unfold MAX_DIFF_SIZE. destruct Hsmall as [Hs | ->].
      * replace (170 <? FileComparison.total_diff_length fc) with false by lia. reflexivity.
      * unfold fc. simpl. rewrite andb_false_r. reflexivity.
Qed.

(** ** Files with neither diff nor source (C7) *)

(** C7 as stated fails: a file with neither diff nor source is still
    traversed while [should_search_for_changes] is null, and a line that is a
    hit in the base and a miss in the head then counts in the change summary,
    which is not all zero. *)
Lemma no_diff_no_source_summary_not_zero :
  let fc := FileComparison.__init__ (Some one_hit_line) (Some one_miss_line) None []
              false None in
  FileComparison.lines 1 fc = Ok (Some [])
  /\ FileComparison.change_summary 1 fc = Ok {[ "hits" := -1; "misses" := 1 ]}
  /\ FileComparison.has_changes 1 fc = Ok true
  /\ ~ (forall s, FileComparison.change_summary 1 fc = Ok s ->
                  forall bucket, CreateChangeSummaryVisitor.count s bucket = 0).
Proof.
  split; [reflexivity|]. split; [vm_compute; reflexivity|]. split; [reflexivity|].
  intros Hzero. specialize (Hzero _ eq_refl "hits"). vm_compute in Hzero. discriminate.
Qed.

(** C7, amended: for a file comparison built with no diff data and no
    source, and fuel for the steps up to the larger end-of-file offset,
    [lines] is the empty list; [change_summary] is empty, hence all zero,
    when [should_search_for_changes] is false (the file is not traversed) or
    when the base or the head report file is absent; when the flag is null or
    true it is the summary of the change-summary visitor called without a
    line on the line numbers 1, 2, ... below the larger end-of-file offset. *)
Theorem no_diff_no_source :
  forall (C : Type) (HC : Coverage C) (base_file head_file : option (ReportFile C))
         (bypass_max_diff : bool) (should_search_for_changes : option bool) (fuel : nat),
    let fc := FileComparison.__init__ base_file head_file None [] bypass_max_diff
                should_search_for_changes in
    let steps :=
      idle_steps (match head_file with Some f => eof f | None => 0 end)
                 (match base_file with Some f => eof f | None => 0 end) 1 1 in
    (steps <= fuel)%nat ->
    FileComparison.lines fuel fc = Ok (Some [])
    /\ (should_search_for_changes = Some false ->
        FileComparison.change_summary fuel fc = Ok ∅)
    /\ (base_file = None \/ head_file = None ->
        FileComparison.change_summary fuel fc = Ok ∅)
    /\ (should_search_for_changes <> Some false ->
        FileComparison.change_summary fuel fc =
        Ok (CreateChangeSummaryVisitor.summary
              (idle_visits steps 1 1
                 (CreateChangeSummaryVisitor.__init__ base_file head_file)))).
Proof.
  intros C HC base_file head_file bypass ssfc fuel fc steps Hfuel.
  set (heof := match head_file with Some f => eof f | None => 0 end) in *.
  set (beof := match base_file with Some f => eof f | None => 0 end) in *.
  assert (Hcalc :
    FileComparison._calculated_changes_and_lines fuel fc =
    if FileComparison.applies_visitors fc then
      Ok (CreateChangeSummaryVisitor.summary
            (idle_visits steps 1 1 (CreateChangeSummaryVisitor.__init__ base_file head_file)),
          [])
    else Ok (∅, [])).
  { unfold FileComparison._calculated_changes_and_lines.
    destruct (FileComparison.applies_visitors fc); [|reflexivity].
    change (FileComparison.manager fc)
      with (Ok (FileComparisonTraverseManager.Manager heof beof [] [] 1 1)).
    cbn [bind]. rewrite apply_idle by exact Hfuel. cbn [bind].
    fold steps. rewrite idle_visits_pair. cbn [fst snd]. rewrite idle_visits_lines.
    reflexivity. }
  assert (Happ : FileComparison.applies_visitors fc
                 = negb (bool_decide (ssfc = Some false))) by reflexivity.
  split; [|split; [|split]].
  - unfold FileComparison.lines. change (MAX_DIFF_SIZE <? FileComparison.total_diff_length fc)
      with false. cbn [andb]. rewrite Hcalc.
    destruct (FileComparison.applies_visitors fc); reflexivity.
  - intros ->. unfold FileComparison.change_summary. rewrite Hcalc, Happ. reflexivity.
  - intros Habs. unfold FileComparison.change_summary. rewrite Hcalc.
    destruct (FileComparison.applies_visitors fc); [|reflexivity].
    rewrite idle_visits_summary_absent by exact Habs. reflexivity.
  - intros Hne. unfold FileComparison.change_summary. rewrite Hcalc, Happ.
    rewrite bool_decide_eq_false_2 by exact Hne. reflexivity.
Qed.

Lemma no_diff_no_source_witness :
  FileComparison.lines 1
    (FileComparison.__init__ (Some one_hit_line) (Some one_miss_line) None [] false None)
  = Ok (Some []).
Proof.
  refine (proj1 (no_diff_no_source Z _ (Some one_hit_line) (Some one_miss_line)
                   false None 1%nat _)).
  vm_compute. lia.
Defined.

(** ** Changes that cancel out (C10) *)

Section HasChanges.
Import CreateChangeSummaryVisitor.

Lemma any_values_spec (s : gmap string Z) :
  FileComparison.any_values s = true <-> exists bucket, count s bucket <> 0.
Proof.
  unfold FileComparison.any_values, count. rewrite existsb_exists. split.
  - intros [[k x] [Hin Hx]]. apply list_elem_of_In, elem_of_map_to_list in Hin.
    exists k. rewrite Hin. simpl in *. lia.
  - intros [k Hk]. destruct (s !! k) as [x|] eqn:Hs; simpl in Hk; [|lia].
    exists (k, x). split; [|simpl; lia].
    apply list_elem_of_In, elem_of_map_to_list. exact Hs.
Qed.
End HasChanges.

(** C10: [has_changes] is [any] over the values of the change summary, and
    that is true exactly when some bucket is not zero. A file whose two
    lines change class in opposite directions has a summary whose buckets are
    both zero, and reports no changes. *)
Theorem has_changes_iff_nonzero_bucket :
  (forall (C : Type) (HC : Coverage C) (fuel : nat) (fc : FileComparison.t C),
     FileComparison.has_changes fuel fc =
     map_outcome FileComparison.any_values (FileComparison.change_summary fuel fc))
  /\ (forall s : gmap string Z,
        FileComparison.any_values s = true <->
        exists bucket, CreateChangeSummaryVisitor.count s bucket <> 0)
  /\ (let fc := FileComparison.__init__ (Some miss_then_hit) (Some hit_then_miss) None
                  ["first line"; "second line"] false None in
      map_outcome (option_map (map LineComparison.coverage)) (FileComparison.lines 2 fc)
        = Ok (Some [(Some miss, Some hit); (Some hit, Some miss)])
      /\ FileComparison.change_summary 2 fc = Ok {[ "misses" := 0; "hits" := 0 ]}
      /\ FileComparison.has_changes 2 fc = Ok false).
Proof.
  split; [reflexivity|]. split; [apply any_values_spec|].
  split; [reflexivity|]. split; [vm_compute; reflexivity|reflexivity].
Qed.

(** ** Initial cursors, and the hunk of an added file (C1) *)

Section InitialCursors.
Import FileComparisonTraverseManager.

(** The three steps that consume the segment; then neither segment nor
    source is left. *)
Lemma apply_added_file_segment {V : Type} `{Visitor V}
    (fuel : nat) (heof beof : Z) (v : V) :
  apply (S (S (S fuel))) (Manager heof beof [added_file_segment] [] 0 1) v =
  apply fuel (Manager heof beof [] [] 1 4)
    (call (Some 0) (Some 3) (Some " c") true
       (call None (Some 2) (Some "+b") true
          (call None (Some 1) (Some "+a") true v))).
Proof. reflexivity. Qed.
End InitialCursors.

(** C1 as stated fails: on the header [[0, 0, 1, 3]] the base cursor starts
    at 0, not at max(1, 0), and the third line is visited with the numbers
    (0, 3), not (1, 3). *)
Lemma initial_cursors_are_not_clamped_up :
  let start := FileComparisonTraverseManager.Manager 0 0 [added_file_segment] [] 0 1 in
  FileComparisonTraverseManager.__init__ 0 0 [added_file_segment] [] = Ok start
  /\ FileComparisonTraverseManager.base_ln start <> Z.max 1 0
  /\ map_outcome
       (fun r => map LineComparison.number (CreateLineComparisonVisitor.lines r.2))
       (FileComparisonTraverseManager.apply 3 start
          (CreateLineComparisonVisitor.__init__ (C:=Z) None None))
     = Ok [(None, Some 1); (None, Some 2); (Some 0, Some 3)]
  /\ [(None, Some 1); (None, Some 2); (Some 0, Some 3)]
     <> [(None, Some 1); (None, Some 2); (Some 1, Some 3)].
Proof.
  split; [reflexivity|]. split; [discriminate|]. split; [reflexivity|discriminate].
Qed.

(** C1, amended: with a non-empty segments list the cursors start at
    min(1, int(base_start)) and min(1, int(head_start)) of the first header,
    and at (1, 1) with no segment. For the single segment with header
    [[0, 0, 1, 3]] and lines "+a", "+b", " c", no source and any end-of-file
    offsets, the visitors are called on exactly three lines, with the numbers
    (None, 1), (None, 2) and (0, 3), the first two flagged added, and after
    that only without a line. *)
Theorem initial_cursors_and_added_file_walk :
  forall (head_file_eof base_file_eof : Z) (seg : diff_segment)
         (rest : list diff_segment) (src : list string) (b h : Z),
    int (base_start (header seg)) = Ok b ->
    int (head_start (header seg)) = Ok h ->
    FileComparisonTraverseManager.__init__ head_file_eof base_file_eof (seg :: rest) src
      = Ok (FileComparisonTraverseManager.Manager head_file_eof base_file_eof
              (seg :: rest) src (Z.min 1 b) (Z.min 1 h))
    /\ FileComparisonTraverseManager.__init__ head_file_eof base_file_eof [] src
      = Ok (FileComparisonTraverseManager.Manager head_file_eof base_file_eof [] src 1 1)
    /\ (forall (V : Type) (HV : Visitor V) (visitors : V) (fuel : nat),
          (3 + idle_steps head_file_eof base_file_eof 1 4 <= fuel)%nat ->
          exists m r,
            FileComparisonTraverseManager.__init__ head_file_eof base_file_eof
              [added_file_segment] [] = Ok m
            /\ FileComparisonTraverseManager.apply fuel m visitors = Ok r
            /\ r.2 = idle_visits (idle_steps head_file_eof base_file_eof 1 4) 1 4
                       (call (Some 0) (Some 3) (Some " c") true
                          (call None (Some 2) (Some "+b") true
                             (call None (Some 1) (Some "+a") true visitors))))
    /\ (forall (C : Type) (fuel : nat),
          (3 + idle_steps head_file_eof base_file_eof 1 4 <= fuel)%nat ->
          exists m r,
            FileComparisonTraverseManager.__init__ head_file_eof base_file_eof
              [added_file_segment] [] = Ok m
            /\ FileComparisonTraverseManager.apply fuel m
                 (CreateLineComparisonVisitor.__init__ (C:=C) None None) = Ok r
            /\ map (fun l => (LineComparison.number l, LineComparison.added l))
                   (CreateLineComparisonVisitor.lines r.2)
               = [((None, Some 1), true); ((None, Some 2), true);
                  ((Some 0, Some 3), false)]).
Proof.
  intros heof beof seg rest src b h Hb Hh.
  split; [|split; [|split]].
  - unfold FileComparisonTraverseManager.__init__. rewrite Hb, Hh. reflexivity.
  - reflexivity.
  - intros V HV v fuel Hfuel.
    destruct fuel as [|[|[|fuel]]]; try lia.
    eexists. eexists. split; [reflexivity|].
    rewrite apply_added_file_segment, apply_idle by lia. split; reflexivity.
  - intros C fuel Hfuel.
    destruct fuel as [|[|[|fuel]]]; try lia.
    eexists. eexists. split; [reflexivity|].
    rewrite apply_added_file_segment, apply_idle by lia. split; [reflexivity|].
    cbn [snd]. rewrite idle_visits_lines. reflexivity.
Qed.

Lemma initial_cursors_and_added_file_walk_witness :
  FileComparisonTraverseManager.__init__ 0 0 [added_file_segment] []
  = Ok (FileComparisonTraverseManager.Manager 0 0 [added_file_segment] []
          (Z.min 1 0) (Z.min 1 1)).
Proof.
  refine (proj1 (initial_cursors_and_added_file_walk 0 0 added_file_segment [] [] 0 1 _ _));
    reflexivity.
Defined.

(** ** The segment grouper (C6) *)

Section Grouping.
Import Segment.

Lemma append_to_last_snoc (gs : list (list Z)) (g : list Z) (x : Z) :
  append_to_last (gs ++ [g]) x = gs ++ [g ++ [x]].
Proof.
  induction gs as [|a gs IH]; [reflexivity|].
  simpl. rewrite IH. destruct (gs ++ [g]) eqn:E; [|reflexivity].
  destruct gs; discriminate.
Qed.

Lemma fold_group_step (xs : list Z) (gs : list (list Z)) (g : list Z) (prev : Z) :
  (fold_left group_step xs (gs ++ [g ++ [prev]], Some prev)).1 =
  gs ++ (g ++ prev :: (split_run prev xs).1) :: (split_run prev xs).2.
Proof.
  revert gs g prev. induction xs as [|x xs IH]; intros gs g prev; [reflexivity|].
  cbn [fold_left group_step split_run].
  destruct (split_run x xs) as [run groups] eqn:E.
  destruct (x - prev <=? line_distance).
  - rewrite append_to_last_snoc, IH, E. cbn [fst snd].
    rewrite <- app_assoc. reflexivity.
  - specialize (IH (gs ++ [g ++ [prev]]) [] x). cbn [app] in IH.
    rewrite IH, E. cbn [fst snd app].
    rewrite <- app_assoc. reflexivity.
Qed.

Lemma segmented_lines_split_run (x : Z) (xs : list Z) :
  segmented_lines (x :: xs) = (x :: (split_run x xs).1) :: (split_run x xs).2.
Proof.
  unfold segmented_lines.
  replace (0 <? Z.of_nat (length (x :: xs))) with true
    by (symmetry; apply Z.ltb_lt; cbn [length]; lia).
  cbn [fold_left group_step append_to_last].
  apply (fold_group_step xs [] [] x).
Qed.

Lemma far_apart_cons (a b : Z) (g g2 : list Z) :
  far_apart (b :: g) g2 -> far_apart (a :: b :: g) g2.
Proof. intros (u & v & Hu & Hv & Huv). exists u, v. auto. Qed.

Lemma split_run_spec (prev : Z) (xs : list Z) :
  prev :: xs = (prev :: (split_run prev xs).1) ++ concat (split_run prev xs).2
  /\ adjacent near (prev :: (split_run prev xs).1)
  /\ Forall (fun g => g <> []) (split_run prev xs).2
  /\ Forall (adjacent near) (split_run prev xs).2
  /\ adjacent far_apart ((prev :: (split_run prev xs).1) :: (split_run prev xs).2).
Proof.
  revert prev. induction xs as [|x xs IH]; intros prev.
  { simpl. repeat split; constructor. }
  destruct (IH x) as (Hcat & Hnear & Hne & Hgs & Hfar).
  cbn [split_run]. destruct (split_run x xs) as [run groups].
  cbn [fst snd] in *.
  destruct (x - prev <=? line_distance) eqn:Hgap; cbn [fst snd].
  - split; [|split; [|split; [|split]]].
    + cbn [app]. f_equal. exact Hcat.
    + split; [unfold near; lia|exact Hnear].
    + exact Hne.
    + exact Hgs.
    + destruct groups as [|g2 groups]; [exact I|].
      destruct Hfar as [Hfar Hrest]. split; [apply far_apart_cons, Hfar|exact Hrest].
  - split; [|split; [|split; [|split]]].
    + cbn [app concat]. f_equal. exact Hcat.
    + exact I.
    + constructor; [discriminate|exact Hne].
    + constructor; [exact Hnear|exact Hgs].
    + split; [|exact Hfar]. exists prev, x. repeat split. lia.
Qed.

(** The groups of the loop: they partition the line numbers in order, none
    is empty, neighbours in a group are near, successive groups far apart. *)
Lemma segmented_lines_spec (xs : list Z) :
  concat (segmented_lines xs) = xs
  /\ Forall (fun g => g <> []) (segmented_lines xs)
  /\ Forall (adjacent near) (segmented_lines xs)
  /\ adjacent far_apart (segmented_lines xs).
Proof.
  destruct xs as [|x xs]; [repeat split; constructor|].
  rewrite segmented_lines_split_run.
  destruct (split_run_spec x xs) as (Hcat & Hnear & Hne & Hgs & Hfar).
  split; [symmetry; exact Hcat|]. split; [constructor; [discriminate|exact Hne]|].
  split; [constructor; [exact Hnear|exact Hgs]|exact Hfar].
Qed.

Lemma bounds_group_bounds (n : Z) (group : list Z) :
  group <> [] -> bounds n group = Ok (group_bounds n group).
Proof.
  intros Hne. unfold bounds, group_bounds.
  destruct group as [|a g]; [contradiction|]. cbn [head].
  destruct (last (a :: g)) eqn:E; [reflexivity|].
  apply last_None in E. discriminate.
Qed.
End Grouping.

Section Segments.
Import Segment.
Context {C : Type} `{Coverage C}.

Lemma build_segments (lines : list (LineComparison.t C)) (groups : list (list Z)) :
  Forall (fun g => g <> []) groups ->
  build lines groups = Ok (map (segment_of lines) groups).
Proof.
  induction 1 as [|g groups Hg Hgs IH]; [reflexivity|].
  cbn [build map]. rewrite bounds_group_bounds by exact Hg.
  unfold segment_of at 1. destruct (group_bounds (Z.of_nat (length lines)) g) as [a b].
  cbn [bind fst snd]. rewrite IH. reflexivity.
Qed.

Lemma lookup_cons_Z (line : LineComparison.t C) (rest : list (LineComparison.t C)) (k : Z) :
  0 < k -> (line :: rest) !! Z.to_nat k = rest !! Z.to_nat (k - 1).
Proof.
  intros Hk. replace (Z.to_nat k) with (S (Z.to_nat (k - 1))) by lia. reflexivity.
Qed.

(** The line numbers of interest are the indices of the lines of interest. *)
Lemma line_numbers_from_spec (idx : Z) (lines : list (LineComparison.t C)) (i : Z) :
  i ∈ line_numbers_from idx lines <->
  idx <= i /\ exists line, lines !! Z.to_nat (i - idx) = Some line /\ of_interest line = true.
Proof.
  revert idx. induction lines as [|line rest IH]; intros idx.
  { simpl. rewrite elem_of_nil. split; [tauto|]. intros [_ [l [Hl _]]]. discriminate. }
  cbn [line_numbers_from].
  assert (Hrest : i ∈ line_numbers_from (idx + 1) rest <->
                  idx < i /\ exists l, (line :: rest) !! Z.to_nat (i - idx) = Some l
                                       /\ of_interest l = true).
  { rewrite IH. split.
    - intros [Hi [l [Hl Hint]]]. split; [lia|]. exists l. split; [|exact Hint].
      rewrite lookup_cons_Z by lia. rewrite <- Hl. f_equal. lia.
    - intros [Hi [l [Hl Hint]]]. split; [lia|]. exists l. split; [|exact Hint].
      rewrite lookup_cons_Z in Hl by lia. rewrite <- Hl. f_equal. lia. }
  destruct (of_interest line) eqn:Hline.
  - rewrite elem_of_cons, Hrest. split.
    + intros [-> | [Hi Hex]]; [|split; [lia|exact Hex]].
      split; [lia|]. exists line. rewrite Z.sub_diag. auto.
    + intros [Hi Hex]. destruct (decide (i = idx)) as [->|Hne]; [left; reflexivity|].
      right. split; [lia|exact Hex].
  - rewrite Hrest. split.
    + intros [Hi Hex]. split; [lia|exact Hex].
    + intros [Hi [l [Hl Hint]]]. destruct (decide (i = idx)) as [->|Hne].
      * rewrite Z.sub_diag in Hl. injection Hl as <-. congruence.
      * split; [lia|]. exists l. auto.
Qed.
End Segments.

(** C6: the line numbers of interest are the indices of the lines whose
    coverage classes differ or that are added or removed; the grouper splits
    them, in order, into non-empty groups in which successive indices are at
    most 6 apart, while from one group to the next the gap is more than 6;
    there is one segment per group, the lines from 3 before the first index
    of the group to 3 after its last, kept within 0 and len(lines) - 1.
    Indices of interest 5 and 40 give two groups, hence two segments: lines
    2..8 and 37..43, the latter cut at the last line of a shorter file. *)
Theorem segments_cluster_lines_of_interest :
  (forall (C : Type) (HC : Coverage C) (lines : list (LineComparison.t C)),
     let n := Z.of_nat (length lines) in
     let line_numbers := Segment.line_numbers lines in
     let groups := Segment.segmented_lines line_numbers in
     (forall line,
        Segment.of_interest line = true <->
        (LineComparison.coverage line).1 <> (LineComparison.coverage line).2
        \/ LineComparison.added line = true \/ LineComparison.removed line = true)
     /\ (forall i,
           i ∈ line_numbers <->
           0 <= i /\ exists line,
             lines !! Z.to_nat i = Some line /\ Segment.of_interest line = true)
     /\ concat groups = line_numbers
     /\ Forall (fun g => g <> []) groups
     /\ Forall (adjacent near) groups
     /\ adjacent far_apart groups
     /\ Segment.segments lines = Ok (map (segment_of lines) groups)
     /\ (forall g,
           segment_of lines g =
           Segment.Make
             (Py.slice lines (Z.max (default 0 (head g) - 3) 0)
                (Z.min (default 0 (last g) + 3) (n - 1) + 1))))
  /\ (forall n,
        map (Segment.bounds n) (Segment.segmented_lines [5; 40]) =
        [Ok (2, Z.min 8 (n - 1)); Ok (37, Z.min 43 (n - 1))])
  /\ Segment.line_numbers synthetic_file = [5; 40]
  /\ map_outcome (map (fun s => map LineComparison.head_ln (Segment._lines s)))
       (Segment.segments synthetic_file)
     = Ok [[Some 3; Some 4; Some 5; Some 6; Some 7; Some 8; Some 9];
           [Some 38; Some 39; Some 40; Some 41; Some 42]].
Proof.
  split; [|split; [|split]].
  - intros C HC lines n line_numbers groups.
    destruct (segmented_lines_spec line_numbers) as (Hcat & Hne & Hnear & Hfar).
    split; [|split; [|split; [|split; [|split; [|split; [|split]]]]]].
    + intros line. unfold Segment.of_interest.
      rewrite !orb_true_iff, bool_decide_eq_true. tauto.
    + intros i. unfold line_numbers, Segment.line_numbers.
      rewrite line_numbers_from_spec, Z.sub_0_r. reflexivity.
    + exact Hcat.
    + exact Hne.
    + exact Hnear.
    + exact Hfar.
    + apply build_segments. exact Hne.
    + reflexivity.
  - intros n. reflexivity.
  - reflexivity.
  - vm_compute. reflexivity.
Qed.

(** * Further properties of the traverser *)

Section TraverserPhases.
Import FileComparisonTraverseManager.
Context {V : Type} `{Visitor V}.

Lemma added_not_removed (line_value : option string) :
  _is_added line_value = true -> _is_removed line_value = false.
Proof.
  destruct line_value as [[|c rest]|]; simpl; try discriminate.
  intros Hc. apply Ascii.eqb_eq in Hc. subst c. reflexivity.
Qed.

Lemma base_lines_nonneg (ls : list string) : 0 <= base_lines ls.
Proof.
  induction ls as [|l ls IH]; cbn [base_lines]; [lia|]. destruct (_is_added (Some l)); lia.
Qed.

Lemma head_lines_nonneg (ls : list string) : 0 <= head_lines ls.
Proof.
  induction ls as [|l ls IH]; cbn [head_lines]; [lia|]. destruct (_is_removed (Some l)); lia.
Qed.

(** Whether the cursors are in the front segment depends on its header only. *)
Lemma traversing_diff_header (heof beof : Z) (hd : hunk_header) (ls : list string)
    (rest : list diff_segment) (src : list string) (sb sh b h : Z) :
  int (base_start hd) = Ok sb -> int (head_start hd) = Ok sh ->
  traversing_diff (Manager heof beof (DiffSegment hd ls :: rest) src b h) =
  Ok ((sb <=? b) && (b <? sb + int_or_1 (base_len hd))
      || (sh <=? h) && (h <? sh + int_or_1 (head_len hd))).
Proof. intros Hb Hh. unfold traversing_diff. simpl. rewrite Hb, Hh. reflexivity. Qed.

(** One iteration inside a hunk: the first line of the segment is popped and
    visited as a diff line. *)
Lemma step_in_hunk (heof beof : Z) (hd : hunk_header) (l : string) (ls : list string)
    (rest : list diff_segment) (src : list string) (b h : Z) (v : V) :
  traversing_diff (Manager heof beof (DiffSegment hd (l :: ls) :: rest) src b h) = Ok true ->
  step (Manager heof beof (DiffSegment hd (l :: ls) :: rest) src b h) v =
  Ok (drop_done (advance (Some l) (Manager heof beof (DiffSegment hd ls :: rest) src b h)),
      call (if _is_added (Some l) then None else Some b)
           (if _is_removed (Some l) then None else Some h) (Some l) true v).
Proof.
  intros Hin. unfold step, pop_line. rewrite Hin.
  cbn [bind segments lines head_file_eof base_file_eof FileComparisonTraverseManager.src
       base_ln head_ln header].
  change (traversing_diff (Manager heof beof (DiffSegment hd ls :: rest) src b h))
    with (traversing_diff (Manager heof beof (DiffSegment hd (l :: ls) :: rest) src b h)).
  rewrite Hin. reflexivity.
Qed.

(** A hunk whose header covers its lines is consumed line by line, whatever
    follows it and whatever the source. *)
Lemma apply_consumes_hunk (fuel : nat) (heof beof : Z) (hd : hunk_header)
    (ls : list string) (rest : list diff_segment) (src : list string)
    (sb sh b h : Z) (v : V) :
  int (base_start hd) = Ok sb -> int (head_start hd) = Ok sh ->
  ls <> [] -> sb <= b -> sh <= h ->
  b + base_lines ls <= sb + int_or_1 (base_len hd) ->
  h + head_lines ls <= sh + int_or_1 (head_len hd) ->
  apply (length ls + fuel) (Manager heof beof (DiffSegment hd ls :: rest) src b h) v =
  apply fuel (Manager heof beof rest src (b + base_lines ls) (h + head_lines ls))
    (hunk_visits ls b h v).
Proof.
  intros Hsb Hsh. revert b h v.
  induction ls as [|l ls IH]; intros b h v Hne Hb Hh Hbl Hhl; [contradiction|].
  change (length (l :: ls) + fuel)%nat with (S (length ls + fuel)).
  rewrite apply_unfold.
  change (traverse_finished (Manager heof beof (DiffSegment hd (l :: ls) :: rest) src b h))
    with false. cbv iota.
  pose proof (base_lines_nonneg ls) as Hbn. pose proof (head_lines_nonneg ls) as Hhn.
  cbn [base_lines head_lines] in Hbl, Hhl.
  assert (Hin : traversing_diff
                  (Manager heof beof (DiffSegment hd (l :: ls) :: rest) src b h) = Ok true).
  { rewrite (traversing_diff_header _ _ _ _ _ _ sb sh) by assumption. f_equal.
    destruct (_is_added (Some l)) eqn:Ha.
    - rewrite (added_not_removed _ Ha) in Hhl.
      apply orb_true_iff. right. apply andb_true_iff. split; lia.
    - apply orb_true_iff. left. apply andb_true_iff. split; lia. }
  rewrite step_in_hunk by exact Hin. cbn [bind].
  cbn [hunk_visits base_lines head_lines].
  set (v' := call _ _ (Some l) true v).
  assert (Hstate :
    drop_done (advance (Some l) (Manager heof beof (DiffSegment hd ls :: rest) src b h)) =
    let b' := b + (if _is_added (Some l) then 0 else 1) in
    let h' := h + (if _is_removed (Some l) then 0 else 1) in
    match ls with
    | [] => Manager heof beof rest src b' h'
    | _ :: _ => Manager heof beof (DiffSegment hd ls :: rest) src b' h'
    end).
  { unfold advance, drop_done.
    destruct (_is_added (Some l)) eqn:Ha.
    - rewrite (added_not_removed _ Ha). destruct ls; cbn; rewrite Z.add_0_r; reflexivity.
    - destruct (_is_removed (Some l)); destruct ls; cbn; rewrite ?Z.add_0_r; reflexivity. }
  rewrite Hstate. cbv zeta.
  assert (Hvisits :
    (if _is_added (Some l) then hunk_visits ls b (h + 1) v'
     else if _is_removed (Some l) then hunk_visits ls (b + 1) h v'
     else hunk_visits ls (b + 1) (h + 1) v') =
    hunk_visits ls (b + (if _is_added (Some l) then 0 else 1))
      (h + (if _is_removed (Some l) then 0 else 1)) v').
  { destruct (_is_added (Some l)) eqn:Ha.
    - rewrite (added_not_removed _ Ha), Z.add_0_r. reflexivity.
    - destruct (_is_removed (Some l)); rewrite ?Z.add_0_r; reflexivity. }
  rewrite Hvisits.
  destruct ls as [|l' ls'].
  - cbn [length hunk_visits base_lines head_lines Nat.add]. do 2 f_equal; lia.
  - rewrite IH.
    + do 2 f_equal; lia.
    + discriminate.
    + destruct (_is_added (Some l)); lia.
    + destruct (_is_removed (Some l)); lia.
    + lia.
    + lia.
Qed.

(** Before the first hunk, without a source: no line, both cursors move. *)
Lemma step_before_hunk (heof beof : Z) (hd : hunk_header) (l : string) (ls : list string)
    (rest : list diff_segment) (b h : Z) (v : V) :
  traversing_diff (Manager heof beof (DiffSegment hd (l :: ls) :: rest) [] b h) = Ok false ->
  step (Manager heof beof (DiffSegment hd (l :: ls) :: rest) [] b h) v =
  Ok (Manager heof beof (DiffSegment hd (l :: ls) :: rest) [] (b + 1) (h + 1),
      call (Some b) (Some h) None false v).
Proof.
  intros Hout. unfold step, pop_line. rewrite Hout. cbn [bind Py.truthy src].
  rewrite Hout. reflexivity.
Qed.

Lemma apply_reaches_hunk (n fuel : nat) (heof beof : Z) (hd : hunk_header)
    (l : string) (ls : list string) (rest : list diff_segment) (sb sh b h : Z) (v : V) :
  int (base_start hd) = Ok sb -> int (head_start hd) = Ok sh ->
  b + Z.of_nat n <= sb -> h + Z.of_nat n <= sh ->
  apply (n + fuel) (Manager heof beof (DiffSegment hd (l :: ls) :: rest) [] b h) v =
  apply fuel (Manager heof beof (DiffSegment hd (l :: ls) :: rest) []
                (b + Z.of_nat n) (h + Z.of_nat n))
    (idle_visits n b h v).
Proof.
  intros Hsb Hsh. revert b h v. induction n as [|n IH]; intros b h v Hb Hh.
  - cbn [Nat.add idle_visits]. rewrite !Z.add_0_r. reflexivity.
  - change (S n + fuel)%nat with (S (n + fuel)). rewrite apply_unfold.
    change (traverse_finished (Manager heof beof (DiffSegment hd (l :: ls) :: rest) [] b h))
      with false. cbv iota.
    rewrite step_before_hunk.
    + cbn [bind idle_visits]. rewrite IH by lia. do 2 f_equal; lia.
    + rewrite (traversing_diff_header _ _ _ _ _ _ sb sh) by assumption. f_equal.
      apply orb_false_iff. split; apply andb_false_iff; left; lia.
Qed.
End TraverserPhases.

Section TraverserModes.
Import FileComparisonTraverseManager.
Context {V : Type} `{Visitor V}.

Lemma apply_idle_short (fuel : nat) (heof beof b h : Z) (v : V) :
  (fuel < idle_steps heof beof b h)%nat ->
  apply fuel (Manager heof beof [] [] b h) v = OutOfFuel.
Proof.
  revert b h v. induction fuel as [|fuel IH]; intros b h v Hfuel.
  - cbn [apply]. rewrite finished_idle.
    replace ((heof <=? h) && (beof <=? b)) with false; [reflexivity|].
    unfold idle_steps in Hfuel. symmetry. apply andb_false_iff. lia.
  - rewrite apply_unfold, finished_idle.
    replace ((heof <=? h) && (beof <=? b)) with false
      by (unfold idle_steps in Hfuel; symmetry; apply andb_false_iff; lia).
    rewrite step_idle. cbn [bind]. apply IH. unfold idle_steps in *. lia.
Qed.

Lemma index_app_middle {A} (done rest : list A) (l : A) :
  Py.index (done ++ l :: rest) (Z.of_nat (length done) + 1 - 1) = Some l.
Proof.
  rewrite index_in_range by (rewrite length_app; cbn [length]; lia).
  replace (Z.to_nat (Z.of_nat (length done) + 1 - 1)) with (length done) by lia.
  apply list_lookup_middle. reflexivity.
Qed.

Lemma step_source_line (heof beof : Z) (done rest : list string) (l : string)
    (b : Z) (v : V) :
  plain l ->
  step (Manager heof beof [] (done ++ l :: rest) b (Z.of_nat (length done) + 1)) v =
  Ok (Manager heof beof [] (done ++ l :: rest) (b + 1) (Z.of_nat (length done) + 1 + 1),
      call (Some b) (Some (Z.of_nat (length done) + 1)) (Some l) false v).
Proof.
  intros [Ha Hr]. unfold step, pop_line.
  cbn [traversing_diff segments bind FileComparisonTraverseManager.src head_ln].
  replace (Py.truthy (done ++ l :: rest)) with true by (destruct done; reflexivity).
  rewrite index_app_middle. cbn [bind traversing_diff segments base_ln head_ln].
  rewrite Ha, Hr. unfold advance, drop_done. rewrite Ha, Hr. reflexivity.
Qed.

Lemma apply_source_lines (rest done : list string) (fuel : nat) (heof beof b : Z) (v : V) :
  Forall plain rest -> done ++ rest <> [] -> (length rest <= fuel)%nat ->
  apply fuel (Manager heof beof [] (done ++ rest) b (Z.of_nat (length done) + 1)) v =
  Ok (Manager heof beof [] (done ++ rest) (b + Z.of_nat (length rest))
        (Z.of_nat (length (done ++ rest)) + 1),
      source_visits rest b (Z.of_nat (length done) + 1) v).
Proof.
  revert done fuel b v. induction rest as [|l rest IH]; intros done fuel b v Hplain Hne Hfuel.
  - rewrite apply_finished.
    + cbn [length source_visits]. rewrite app_nil_r, Z.add_0_r. reflexivity.
    + unfold traverse_finished. cbn [segments Py.truthy FileComparisonTraverseManager.src head_ln].
      rewrite app_nil_r in *. destruct done; [contradiction|]. cbn [Py.truthy]. lia.
  - destruct fuel as [|fuel]; [cbn [length] in Hfuel; lia|].
    inversion Hplain as [|? ? Hl Hrest]; subst.
    rewrite apply_unfold.
    replace (traverse_finished _) with false.
    2:{ unfold traverse_finished.
        cbn [segments Py.truthy FileComparisonTraverseManager.src head_ln].
        replace (Py.truthy (done ++ l :: rest)) with true by (destruct done; reflexivity).
        symmetry. apply Z.ltb_ge. rewrite length_app. cbn [length]. lia. }
    rewrite step_source_line by exact Hl. cbn [bind source_visits].
    specialize (IH (done ++ [l]) fuel (b + 1)
                  (call (Some b) (Some (Z.of_nat (length done) + 1)) (Some l) false v)).
    rewrite <- app_assoc in IH. cbn [app] in IH.
    rewrite length_app in IH. cbn [length] in IH.
    replace (Z.of_nat (length done + 1)) with (Z.of_nat (length done) + 1) in IH by lia.
    rewrite IH; [|exact Hrest|destruct done; discriminate|cbn [length] in Hfuel; lia].
    cbn [length]. do 3 f_equal. lia.
Qed.
End TraverserModes.

(** X1: every iteration of the traversal loop that does not raise moves the
    base cursor or the head cursor forward by exactly one, and neither cursor
    ever moves backwards. *)
Theorem step_advances_cursors :
  forall (V : Type) (HV : Visitor V) (self self' : FileComparisonTraverseManager.t)
         (v v' : V),
    FileComparisonTraverseManager.step self v = Ok (self', v') ->
    (FileComparisonTraverseManager.base_ln self'
       = FileComparisonTraverseManager.base_ln self + 1
     \/ FileComparisonTraverseManager.head_ln self'
          = FileComparisonTraverseManager.head_ln self + 1)
    /\ FileComparisonTraverseManager.base_ln self
         <= FileComparisonTraverseManager.base_ln self'
    /\ FileComparisonTraverseManager.head_ln self
         <= FileComparisonTraverseManager.head_ln self'
    /\ (length (FileComparisonTraverseManager.segments self')
        <= length (FileComparisonTraverseManager.segments self))%nat.
Proof.
  intros V HV self self' v v' Hstep.
  destruct (step_moves_a_cursor self self' v v' Hstep) as (Hmove & Hb & Hh).
  split; [exact Hmove|]. split; [exact Hb|]. split; [exact Hh|].
  revert Hstep. unfold FileComparisonTraverseManager.step, FileComparisonTraverseManager.pop_line.
  destruct (FileComparisonTraverseManager.traversing_diff self) as [[|]| |];
    cbn [bind]; try discriminate.
  - destruct (FileComparisonTraverseManager.segments self) as [|seg rest] eqn:Hsegs;
      [discriminate|].
    destruct (lines seg) as [|l ls]; [discriminate|]. cbn [bind].
    destruct (FileComparisonTraverseManager.traversing_diff _); cbn [bind]; try discriminate.
    intros [= <- _].
    unfold FileComparisonTraverseManager.advance, FileComparisonTraverseManager.drop_done.
    destruct (_is_added (Some l)), (_is_removed (Some l)); cbn;
      destruct (Py.truthy ls); cbn; lia.
  - assert (Hdrop : forall lv,
              (length (FileComparisonTraverseManager.segments
                         (FileComparisonTraverseManager.drop_done
                            (FileComparisonTraverseManager.advance lv self)))
               <= length (FileComparisonTraverseManager.segments self))%nat).
    { intros lv.
      unfold FileComparisonTraverseManager.advance, FileComparisonTraverseManager.drop_done.
      destruct (_is_added lv), (_is_removed lv); cbn;
        destruct (FileComparisonTraverseManager.segments self) as [|seg rest]; cbn;
        try destruct (Py.truthy (lines seg)); cbn; lia. }
    destruct (Py.truthy (FileComparisonTraverseManager.src self)).
    + destruct (Py.index _ _) as [l|]; [|discriminate]. cbn [bind].
      destruct (FileComparisonTraverseManager.traversing_diff self); cbn [bind];
        try discriminate.
      intros [= <- _]. apply Hdrop.
    + cbn [bind].
      destruct (FileComparisonTraverseManager.traversing_diff self); cbn [bind];
        try discriminate.
      intros [= <- _]. apply Hdrop.
Qed.

Lemma step_advances_cursors_witness :
  (1 + 1 = 1 + 1 \/ 1 + 1 = 1 + 1) /\ 1 <= 1 + 1 /\ 1 <= 1 + 1 /\ (0 <= 0)%nat.
Proof.
  exact (step_advances_cursors (CreateLineComparisonVisitor.t Z) _
           (FileComparisonTraverseManager.Manager 5 5 [] [] 1 1)
           (FileComparisonTraverseManager.Manager 5 5 [] [] (1 + 1) (1 + 1))
           (CreateLineComparisonVisitor.__init__ None None)
           (CreateLineComparisonVisitor.__init__ None None) eq_refl).
Defined.

(** X2: with no segment and no source the traversal takes exactly
    max(0, head_file_eof - head_ln, base_file_eof - base_ln) iterations: it
    is done within that many and not within fewer; both cursors move by that
    number and the visitors are called without a line at each step. *)
Theorem idle_traversal_takes_exactly_idle_steps :
  forall (V : Type) (HV : Visitor V) (fuel : nat) (heof beof b h : Z) (v : V),
    FileComparisonTraverseManager.apply fuel
      (FileComparisonTraverseManager.Manager heof beof [] [] b h) v =
    if decide (Z.max 0 (Z.max (heof - h) (beof - b)) <= Z.of_nat fuel) then
      Ok (FileComparisonTraverseManager.Manager heof beof [] []
            (b + Z.max 0 (Z.max (heof - h) (beof - b)))
            (h + Z.max 0 (Z.max (heof - h) (beof - b))),
          idle_visits (idle_steps heof beof b h) b h v)
    else OutOfFuel.
Proof.
  intros V HV fuel heof beof b h v.
  assert (Hsteps : Z.of_nat (idle_steps heof beof b h)
                   = Z.max 0 (Z.max (heof - h) (beof - b)))
    by (unfold idle_steps; lia).
  destruct (decide _) as [Hle|Hgt].
  - rewrite apply_idle by lia. rewrite Hsteps. reflexivity.
  - apply apply_idle_short. lia.
Qed.

(** X3: with no segment and a non-empty source none of whose lines begins
    with a plus or a minus sign, the traversal is done after len(src)
    iterations: the visitors are called once per source line, in order, with
    the line number as base and head number, the text of the line and
    is_diff false, and both cursors end at len(src) + 1. *)
Theorem source_only_traversal :
  forall (V : Type) (HV : Visitor V) (fuel : nat) (heof beof : Z)
         (src : list string) (v : V),
    src <> [] -> Forall plain src -> (length src <= fuel)%nat ->
    exists m,
      FileComparisonTraverseManager.__init__ heof beof [] src = Ok m
      /\ FileComparisonTraverseManager.apply fuel m v =
         Ok (FileComparisonTraverseManager.Manager heof beof [] src
               (1 + Z.of_nat (length src)) (Z.of_nat (length src) + 1),
             source_visits src 1 1 v).
Proof.
  intros V HV fuel heof beof src v Hne Hplain Hfuel.
  eexists. split; [reflexivity|].
  exact (apply_source_lines src [] fuel heof beof 1 v Hplain Hne Hfuel).
Qed.

Lemma source_only_traversal_witness :
  exists m,
    FileComparisonTraverseManager.__init__ 0 0 [] ["import os"; "print(os.name)"] = Ok m
    /\ FileComparisonTraverseManager.apply 2 m
         (CreateLineComparisonVisitor.__init__ (C:=Z) None None) =
       Ok (FileComparisonTraverseManager.Manager 0 0 [] ["import os"; "print(os.name)"]
             (1 + Z.of_nat 2) (Z.of_nat 2 + 1),
           source_visits ["import os"; "print(os.name)"] 1 1
             (CreateLineComparisonVisitor.__init__ None None)).
Proof.
  apply (source_only_traversal (CreateLineComparisonVisitor.t Z) _ 2 0 0
           ["import os"; "print(os.name)"]).
  - discriminate.
  - repeat constructor.
  - simpl. lia.
Defined.

(** The three phases of the traversal of one hunk, put together. *)
Lemma apply_single_hunk :
  forall (V : Type) (HV : Visitor V) (fuel : nat) (heof beof s : Z)
         (hd : hunk_header) (ls : list string) (v : V),
    int (base_start hd) = Ok s -> int (head_start hd) = Ok s ->
    1 <= s -> ls <> [] ->
    base_lines ls <= int_or_1 (base_len hd) ->
    head_lines ls <= int_or_1 (head_len hd) ->
    (Z.to_nat (s - 1) + (length ls
       + idle_steps heof beof (s + base_lines ls) (s + head_lines ls)) <= fuel)%nat ->
    exists m final,
      FileComparisonTraverseManager.__init__ heof beof [DiffSegment hd ls] [] = Ok m
      /\ FileComparisonTraverseManager.apply fuel m v =
         Ok (final,
             idle_visits (idle_steps heof beof (s + base_lines ls) (s + head_lines ls))
               (s + base_lines ls) (s + head_lines ls)
               (hunk_visits ls s s (idle_visits (Z.to_nat (s - 1)) 1 1 v)))
      /\ FileComparisonTraverseManager.segments final = []
      /\ FileComparisonTraverseManager.base_ln final
         = s + base_lines ls
           + Z.of_nat (idle_steps heof beof (s + base_lines ls) (s + head_lines ls))
      /\ FileComparisonTraverseManager.head_ln final
         = s + head_lines ls
           + Z.of_nat (idle_steps heof beof (s + base_lines ls) (s + head_lines ls)).
Proof.
  intros V HV fuel heof beof s hd ls v Hsb Hsh Hs Hne Hbl Hhl Hfuel.
  set (k := idle_steps heof beof (s + base_lines ls) (s + head_lines ls)) in *.
  eexists. eexists. split.
  { unfold FileComparisonTraverseManager.__init__. cbn [header]. rewrite Hsb, Hsh.
    cbn [bind]. replace (Z.min 1 s) with 1 by lia. reflexivity. }
  replace fuel with (Z.to_nat (s - 1) + (length ls + (fuel - Z.to_nat (s - 1) - length ls)))%nat
    by lia.
  destruct ls as [|l ls]; [contradiction|].
  rewrite (apply_reaches_hunk _ _ heof beof hd l ls [] s s 1 1 v Hsb Hsh) by lia.
  replace (1 + Z.of_nat (Z.to_nat (s - 1))) with s by lia.
  rewrite (apply_consumes_hunk _ heof beof hd (l :: ls) [] [] s s s s _ Hsb Hsh)
    by (first [discriminate | lia]).
  rewrite apply_idle by (fold k; lia).
  fold k. repeat split; reflexivity.
Qed.

(** X4: a diff-only traversal of one hunk that starts at the same line
    [s >= 1] in base and head, has at least one line, and whose header
    lengths cover its lines. The visitors are called without a line on the
    [s - 1] line numbers before the hunk, then once on every line of the
    hunk, in order and flagged as diff lines, an added line without base
    number and a removed line without head number, then without a line up to
    the end-of-file offsets; no segment is left. *)
Theorem single_hunk_traversal :
  forall (V : Type) (HV : Visitor V) (fuel : nat) (heof beof s : Z)
         (hd : hunk_header) (ls : list string) (v : V),
    int (base_start hd) = Ok s -> int (head_start hd) = Ok s ->
    1 <= s -> ls <> [] ->
    base_lines ls <= int_or_1 (base_len hd) ->
    head_lines ls <= int_or_1 (head_len hd) ->
    (Z.to_nat (s - 1) + (length ls
       + idle_steps heof beof (s + base_lines ls) (s + head_lines ls)) <= fuel)%nat ->
    exists m final,
      FileComparisonTraverseManager.__init__ heof beof [DiffSegment hd ls] [] = Ok m
      /\ FileComparisonTraverseManager.apply fuel m v =
         Ok (final,
             idle_visits (idle_steps heof beof (s + base_lines ls) (s + head_lines ls))
               (s + base_lines ls) (s + head_lines ls)
               (hunk_visits ls s s (idle_visits (Z.to_nat (s - 1)) 1 1 v)))
      /\ FileComparisonTraverseManager.segments final = []
      /\ FileComparisonTraverseManager.base_ln final
         = s + base_lines ls
           + Z.of_nat (idle_steps heof beof (s + base_lines ls) (s + head_lines ls))
      /\ FileComparisonTraverseManager.head_ln final
         = s + head_lines ls
           + Z.of_nat (idle_steps heof beof (s + base_lines ls) (s + head_lines ls)).
Proof. exact apply_single_hunk. Qed.

Lemma single_hunk_traversal_witness :
  exists m final,
    FileComparisonTraverseManager.__init__ 0 0
      [DiffSegment (Header (HStr 2) (HStr 2) (HStr 2) (HStr 2)) [" a"; "-b"; "+c"]] [] = Ok m
    /\ FileComparisonTraverseManager.apply 4 m
         (CreateLineComparisonVisitor.__init__ (C:=Z) None None) =
       Ok (final,
           idle_visits (idle_steps 0 0 (2 + 2) (2 + 2)) (2 + 2) (2 + 2)
             (hunk_visits [" a"; "-b"; "+c"] 2 2
                (idle_visits (Z.to_nat (2 - 1)) 1 1
                   (CreateLineComparisonVisitor.__init__ None None))))
    /\ FileComparisonTraverseManager.segments final = []
    /\ FileComparisonTraverseManager.base_ln final
       = 2 + 2 + Z.of_nat (idle_steps 0 0 (2 + 2) (2 + 2))
    /\ FileComparisonTraverseManager.head_ln final
       = 2 + 2 + Z.of_nat (idle_steps 0 0 (2 + 2) (2 + 2)).
Proof.
  apply (single_hunk_traversal (CreateLineComparisonVisitor.t Z) _ 4 0 0 2
           (Header (HStr 2) (HStr 2) (HStr 2) (HStr 2)) [" a"; "-b"; "+c"]);
    first [reflexivity | discriminate | vm_compute; lia | vm_compute; discriminate].
Defined.

Section HunkLines.
Context {C : Type}.

(** What the line visitor holds after the visits of a hunk. *)
Lemma hunk_visits_lines (ls : list string) (b h : Z) (v : CreateLineComparisonVisitor.t C) :
  exists rows,
    CreateLineComparisonVisitor.lines (hunk_visits ls b h v)
      = CreateLineComparisonVisitor.lines v ++ rows
    /\ map LineComparison.value rows = ls
    /\ Forall (fun row => LineComparison.is_diff row = true) rows
    /\ base_lines ls
       = Z.of_nat (length (filter (fun row => LineComparison.base_ln row <> None) rows))
    /\ head_lines ls
       = Z.of_nat (length (filter (fun row => LineComparison.head_ln row <> None) rows)).
Proof.
  revert b h v. induction ls as [|l ls IH]; intros b h v.
  { exists []. cbn [hunk_visits]. rewrite app_nil_r. repeat split; constructor. }
  cbn [hunk_visits].
  set (v' := call _ _ (Some l) true v).
  assert (Hv' : exists row,
            CreateLineComparisonVisitor.lines v' = CreateLineComparisonVisitor.lines v ++ [row]
            /\ LineComparison.value row = l /\ LineComparison.is_diff row = true
            /\ LineComparison.base_ln row = (if _is_added (Some l) then None else Some b)
            /\ LineComparison.head_ln row = (if _is_removed (Some l) then None else Some h)).
  { eexists. split; [reflexivity|]. repeat split; reflexivity. }
  destruct Hv' as (row & Hlines & Hval & Hdiff & Hbase & Hhead).
  assert (Hrest : forall b' h', exists rows,
            CreateLineComparisonVisitor.lines (hunk_visits ls b' h' v')
              = CreateLineComparisonVisitor.lines v ++ row :: rows
            /\ map LineComparison.value rows = ls
            /\ Forall (fun row => LineComparison.is_diff row = true) rows
            /\ base_lines ls = Z.of_nat (length (filter
                 (fun row => LineComparison.base_ln row <> None) rows))
            /\ head_lines ls = Z.of_nat (length (filter
                 (fun row => LineComparison.head_ln row <> None) rows))).
  { intros b' h'. destruct (IH b' h' v') as (rows & H1 & H2 & H3 & H4 & H5).
    exists rows. rewrite H1, Hlines, <- app_assoc. repeat split; assumption. }
  assert (Hgoal : forall b' h', exists rows,
            CreateLineComparisonVisitor.lines (hunk_visits ls b' h' v')
              = CreateLineComparisonVisitor.lines v ++ rows
            /\ map LineComparison.value rows = l :: ls
            /\ Forall (fun row => LineComparison.is_diff row = true) rows
            /\ base_lines (l :: ls) = Z.of_nat (length (filter
                 (fun row => LineComparison.base_ln row <> None) rows))
            /\ head_lines (l :: ls) = Z.of_nat (length (filter
                 (fun row => LineComparison.head_ln row <> None) rows))).
  { intros b' h'. destruct (Hrest b' h') as (rows & H1 & H2 & H3 & H4 & H5).
    exists (row :: rows). split; [exact H1|]. split; [cbn [map]; congruence|].
    split; [constructor; assumption|].
    cbn [base_lines head_lines]. rewrite !filter_cons, Hbase, Hhead, H4, H5.
    split.
    - destruct (_is_added (Some l)); destruct (decide _) as [Hd|Hd];
        try congruence; cbn [length]; try lia. exfalso. apply Hd. discriminate.
    - destruct (_is_removed (Some l)); destruct (decide _) as [Hd|Hd];
        try congruence; cbn [length]; try lia. exfalso. apply Hd. discriminate. }
  destruct (_is_added (Some l)); [apply Hgoal|].
  destruct (_is_removed (Some l)); apply Hgoal.
Qed.
End HunkLines.

(** * Further properties of the visitors and of the file comparison *)

Section VisitorInvariants.
Import FileComparisonTraverseManager.
Context {V : Type} `{Visitor V}.

(** A property of the visitors that every call of the loop keeps holds after
    the traversal. The loop calls with no base number exactly on added lines
    and with no head number exactly on removed lines. *)
Lemma apply_invariant (P : V -> Prop) :
  (forall b h lv d v,
     P v ->
     P (call (if _is_added lv then None else Some b)
             (if _is_removed lv then None else Some h) lv d v)) ->
  forall fuel m v r, P v -> apply fuel m v = Ok r -> P r.2.
Proof.
  intros Hcall. induction fuel as [|fuel IH]; intros m v r Hv.
  - cbn [apply]. destruct (traverse_finished m); [|discriminate].
    intros [= <-]. exact Hv.
  - rewrite apply_unfold. destruct (traverse_finished m).
    + intros [= <-]. exact Hv.
    + unfold step. destruct (pop_line m) as [[lv m1]| |]; cbn [bind]; try discriminate.
      destruct (traversing_diff m1) as [d| |]; cbn [bind]; try discriminate.
      apply IH. apply Hcall. exact Hv.
Qed.
End VisitorInvariants.

Section FileInvariants.
Context {C : Type} `{Coverage C}.

Lemma traversal_invariant {V : Type} `{Visitor V} (P : V -> Prop) :
  (forall b h lv d v,
     P v ->
     P (call (if _is_added lv then None else Some b)
             (if _is_removed lv then None else Some h) lv d v)) ->
  forall fuel (fc : FileComparison.t C) v v', P v -> traversal fuel fc v = Ok v' -> P v'.
Proof.
  intros Hcall fuel fc v v' Hv. unfold traversal.
  destruct (FileComparison.applies_visitors fc); [|intros [= <-]; exact Hv].
  destruct (FileComparison.manager fc) as [m| |]; cbn [bind]; try discriminate.
  destruct (FileComparisonTraverseManager.apply fuel m v) as [[m' w]| |] eqn:Happ;
    cbn [bind]; try discriminate.
  intros [= <-]. exact (apply_invariant P Hcall fuel m v (m', w) Hv Happ).
Qed.

Lemma line_visitor_keeps_well_numbered (b h : Z) (lv : option string) (d : bool)
    (v : CreateLineComparisonVisitor.t C) :
  Forall well_numbered (CreateLineComparisonVisitor.lines v) ->
  Forall well_numbered
    (CreateLineComparisonVisitor.lines
       (call (if _is_added lv then None else Some b)
             (if _is_removed lv then None else Some h) lv d v)).
Proof.
  intros Hv. destruct lv as [l|]; [|exact Hv].
  assert (Hexcl := added_not_removed (Some l)).
  destruct (_is_added (Some l)) eqn:Ha; destruct (_is_removed (Some l)) eqn:Hr;
    try (specialize (Hexcl eq_refl); discriminate);
    unfold call, CreateLineComparisonVisitor.visitor, CreateLineComparisonVisitor.__call__,
      FileComparisonVisitor._get_lines;
    cbn [CreateLineComparisonVisitor.lines];
    (apply Forall_app; split; [exact Hv|]); (constructor; [|constructor]);
    unfold well_numbered, LineComparison.number, LineComparison.added,
      LineComparison.removed;
    cbn [LineComparison.base_ln LineComparison.head_ln LineComparison.value];
    rewrite Ha, Hr; cbn [negb];
    (split; [|split; [|split]]); try reflexivity;
    try (split; intros; first [reflexivity | discriminate]);
    intros [Hx Hy]; discriminate.
Qed.

Lemma count_unchanged (s s' : gmap string Z) (k : string) :
  s' !! k = s !! k -> CreateChangeSummaryVisitor.count s' k = CreateChangeSummaryVisitor.count s k.
Proof. unfold CreateChangeSummaryVisitor.count. intros ->. reflexivity. Qed.

Lemma _update_summary_balanced (bl hl : report_line C) (s : gmap string Z) :
  line_type (coverage0 bl) <> line_type (coverage0 hl) ->
  balanced s -> balanced (CreateChangeSummaryVisitor._update_summary bl hl s).
Proof.
  intros Hne [Hdom Hsum].
  assert (Hk : CreateChangeSummaryVisitor.coverage_type_map (line_type (coverage0 bl))
               <> CreateChangeSummaryVisitor.coverage_type_map (line_type (coverage0 hl)))
    by (intros Hk; apply Hne, coverage_type_map_inj, Hk).
  destruct (_update_summary_counts bl hl s Hk) as (Hb & Hh & Hother).
  split.
  - intros k H1 H2 H3. rewrite Hother; [apply Hdom; assumption| |];
      destruct (line_type (coverage0 bl)), (line_type (coverage0 hl)); cbn; congruence.
  - destruct (line_type (coverage0 bl)), (line_type (coverage0 hl));
      try contradiction; cbn in Hb, Hh, Hother.
    + rewrite Hb, Hh, (count_unchanged _ _ "partials") by (apply Hother; discriminate). lia.
    + rewrite Hb, Hh, (count_unchanged _ _ "misses") by (apply Hother; discriminate). lia.
    + rewrite Hb, Hh, (count_unchanged _ _ "partials") by (apply Hother; discriminate). lia.
    + rewrite Hb, Hh, (count_unchanged _ _ "hits") by (apply Hother; discriminate). lia.
    + rewrite Hb, Hh, (count_unchanged _ _ "misses") by (apply Hother; discriminate). lia.
    + rewrite Hb, Hh, (count_unchanged _ _ "hits") by (apply Hother; discriminate). lia.
Qed.

Lemma summary_visitor_keeps_balanced (base_ln head_ln : option Z) (lv : option string)
    (d : bool) (v : CreateChangeSummaryVisitor.t C) :
  balanced (CreateChangeSummaryVisitor.summary v) ->
  balanced (CreateChangeSummaryVisitor.summary (call base_ln head_ln lv d v)).
Proof.
  intros Hv. unfold call, CreateChangeSummaryVisitor.visitor,
    CreateChangeSummaryVisitor.__call__.
  destruct (CreateChangeSummaryVisitor.is_changed_source_line lv); [exact Hv|].
  destruct (FileComparisonVisitor._get_lines _ _ _ _) as [[bl|] [hl|]]; try exact Hv.
  destruct (decide _) as [Heq|Hne]; [exact Hv|].
  cbn [CreateChangeSummaryVisitor.summary]. apply _update_summary_balanced; assumption.
Qed.

Lemma summary_visitor_without_file (base_ln head_ln : option Z) (lv : option string)
    (d : bool) (v : CreateChangeSummaryVisitor.t C) :
  CreateChangeSummaryVisitor.base_file v = None
  \/ CreateChangeSummaryVisitor.head_file v = None ->
  call base_ln head_ln lv d v = v.
Proof.
  intros Habs. unfold call, CreateChangeSummaryVisitor.visitor,
    CreateChangeSummaryVisitor.__call__, FileComparisonVisitor._get_lines.
  destruct (CreateChangeSummaryVisitor.is_changed_source_line lv); [reflexivity|].
  destruct Habs as [-> | ->]; cbn; [reflexivity|].
  destruct (FileComparisonVisitor._get_line _ _); reflexivity.
Qed.
End FileInvariants.

Section FileLevel.
Context {C : Type} `{Coverage C}.

Lemma lines_from_traversal (fuel : nat) (fc : FileComparison.t C)
    (rows : list (LineComparison.t C)) :
  FileComparison.lines fuel fc = Ok (Some rows) ->
  exists v,
    traversal fuel fc
      (CreateLineComparisonVisitor.__init__
         (FileComparison.base_file fc) (FileComparison.head_file fc)) = Ok v
    /\ CreateLineComparisonVisitor.lines v = rows.
Proof.
  unfold FileComparison.lines.
  destruct ((MAX_DIFF_SIZE <? FileComparison.total_diff_length fc)
            && negb (FileComparison.bypass_max_diff fc)); [discriminate|].
  pose proof (calculated_lines_traversal fuel fc) as Hl.
  destruct (FileComparison._calculated_changes_and_lines fuel fc) as [[s l]| |];
    cbn [map_outcome bind snd] in Hl |- *; try discriminate.
  intros [= <-].
  destruct (traversal fuel fc _) as [v| |]; cbn [map_outcome bind] in Hl; try discriminate.
  exists v. split; [reflexivity|]. congruence.
Qed.

Lemma summary_from_traversal (fuel : nat) (fc : FileComparison.t C) (s : gmap string Z) :
  FileComparison.change_summary fuel fc = Ok s ->
  exists v,
    traversal fuel fc
      (CreateChangeSummaryVisitor.__init__
         (FileComparison.base_file fc) (FileComparison.head_file fc)) = Ok v
    /\ CreateChangeSummaryVisitor.summary v = s.
Proof.
  rewrite change_summary_traversal.
  destruct (traversal fuel fc _) as [v| |]; cbn [map_outcome bind]; try discriminate.
  intros [= <-]. exists v. split; reflexivity.
Qed.

(** The flag [should_search_for_changes] reaches the change summary through
    the guard of the traversal only. *)
Lemma change_summary_same_guard (fuel : nat) (fc fc' : FileComparison.t C) :
  FileComparison.base_file fc' = FileComparison.base_file fc ->
  FileComparison.head_file fc' = FileComparison.head_file fc ->
  FileComparison.diff_data fc' = FileComparison.diff_data fc ->
  FileComparison.src fc' = FileComparison.src fc ->
  FileComparison.applies_visitors fc' = FileComparison.applies_visitors fc ->
  FileComparison.change_summary fuel fc' = FileComparison.change_summary fuel fc.
Proof.
  intros Hb Hh Hd Hs Ha.
  unfold FileComparison.change_summary, FileComparison._calculated_changes_and_lines,
    FileComparison.manager.
  rewrite Hb, Hh, Hd, Hs, Ha. reflexivity.
Qed.

Lemma change_summary_not_traversed (fuel : nat) (fc : FileComparison.t C) :
  FileComparison.applies_visitors fc = false ->
  FileComparison.change_summary fuel fc = Ok ∅.
Proof.
  intros Ha. unfold FileComparison.change_summary, FileComparison._calculated_changes_and_lines.
  rewrite Ha. reflexivity.
Qed.

Lemma files_names (fuel : nat) (yielded : list (string * FileComparison.t C))
    (written : list string) :
  PullRequestComparison.files fuel yielded = Ok written ->
  forall name, name ∈ written -> name ∈ yielded.*1.
Proof.
  revert written. induction yielded as [|[n fc] rest IH]; intros written.
  - intros [= <-] name Hin. exact Hin.
  - cbn [PullRequestComparison.files].
    destruct (FileComparison.change_summary fuel fc) as [s| |]; cbn [bind]; try discriminate.
    destruct (PullRequestComparison.files fuel rest) as [w| |]; cbn [bind]; try discriminate.
    intros [= <-] name Hin. cbn [fmap list_fmap fst].
    destruct (PullRequestComparison.counter_truthy s).
    + apply elem_of_cons in Hin as [->|Hin]; [left|right; eapply IH; eauto].
    + right. eapply IH; eauto.
Qed.

(** A file is written to the list exactly when its Counter has a key. *)
Lemma files_spec (fuel : nat) (yielded : list (string * FileComparison.t C))
    (written : list string) (name : string) (fc : FileComparison.t C) :
  PullRequestComparison.files fuel yielded = Ok written ->
  NoDup yielded.*1 -> (name, fc) ∈ yielded ->
  exists s, FileComparison.change_summary fuel fc = Ok s /\ (name ∈ written <-> s <> ∅).
Proof.
  revert written. induction yielded as [|[n0 fc0] rest IH]; intros written Hfiles Hnodup Hin.
  { apply elem_of_nil in Hin. contradiction. }
  cbn [PullRequestComparison.files] in Hfiles.
  destruct (FileComparison.change_summary fuel fc0) as [s0| |] eqn:Hs0;
    cbn [bind] in Hfiles; try discriminate.
  destruct (PullRequestComparison.files fuel rest) as [w| |] eqn:Hw;
    cbn [bind] in Hfiles; try discriminate.
  injection Hfiles as <-.
  cbn [fmap list_fmap fst] in Hnodup. apply NoDup_cons in Hnodup as [Hfresh Hnodup].
  assert (Hn0 : n0 ∉ w) by (intros Hx; apply Hfresh; eapply files_names; eauto).
  unfold PullRequestComparison.counter_truthy.
  apply elem_of_cons in Hin as [[= -> ->]|Hin].
  - exists s0. split; [exact Hs0|]. destruct (bool_decide (s0 <> ∅)) eqn:Ht.
    + apply bool_decide_eq_true in Ht. split; [intros _; exact Ht|intros _; left].
    + apply bool_decide_eq_false in Ht. split; [intros Hx; contradiction|].
      intros Hx. contradiction.
  - destruct (IH w eq_refl Hnodup Hin) as (s & Hs & Hiff).
    exists s. split; [exact Hs|].
    assert (Hne : name <> n0).
    { intros ->. apply Hfresh. apply list_elem_of_fmap. exists (n0, fc). auto. }
    destruct (bool_decide (s0 <> ∅)); [|exact Hiff].
    rewrite elem_of_cons. split; [intros [Hx|Hx]; [contradiction|apply Hiff, Hx]|].
    intros Hx. right. apply Hiff, Hx.
Qed.

Lemma flag_keeps_change_summary (fuel : nat) (fc : FileComparison.t C)
    (s : gmap string Z) (names : list string) (file_name : string) :
  FileComparison.change_summary fuel fc = Ok s ->
  (file_name ∈ names <-> s <> ∅) ->
  exists fc',
    PullRequestComparison.get_file_comparison
      (PullRequestComparison.Returns (Some (PullRequestComparison.JNames names)))
      file_name fc = Ok fc'
    /\ FileComparison.should_search_for_changes fc'
       = Some (PullRequestComparison.counter_truthy s)
    /\ FileComparison.change_summary fuel fc' = Ok s.
Proof.
  intros Hs Hiff. eexists. split; [reflexivity|].
  cbn [FileComparison.should_search_for_changes].
  assert (Hflag : bool_decide (file_name ∈ names) = PullRequestComparison.counter_truthy s).
  { unfold PullRequestComparison.counter_truthy. apply bool_decide_ext. exact Hiff. }
  split; [rewrite Hflag; reflexivity|].
  set (fc' := FileComparison.Make _ _ _ _ _ _ _).
  destruct (FileComparison.applies_visitors fc) eqn:Ha;
    destruct (FileComparison.applies_visitors fc') eqn:Ha'.
  - rewrite <- Hs. apply change_summary_same_guard; try reflexivity. congruence.
  - (* the new flag is false: the summary was empty *)
    rewrite change_summary_not_traversed by exact Ha'. f_equal.
    unfold FileComparison.applies_visitors, fc' in Ha'.
    cbn [FileComparison.diff_data FileComparison.src FileComparison.should_search_for_changes]
      in Ha'.
    apply orb_false_iff in Ha' as [_ Hf]. apply negb_false_iff, bool_decide_eq_true in Hf.
    injection Hf as Hf. rewrite Hflag in Hf. unfold PullRequestComparison.counter_truthy in Hf.
    apply bool_decide_eq_false in Hf. destruct (decide (s = ∅)) as [->|Hne]; [reflexivity|].
    contradiction.
  - (* the file was not traversed: its summary is empty and the new flag is false *)
    rewrite change_summary_not_traversed in Hs by exact Ha. injection Hs as <-.
    exfalso. unfold FileComparison.applies_visitors in Ha, Ha'. unfold fc' in Ha'.
    cbn [FileComparison.diff_data FileComparison.src FileComparison.should_search_for_changes]
      in Ha'.
    apply orb_false_iff in Ha as [Ha _]. rewrite Ha in Ha'. cbn [orb] in Ha'.
    apply negb_true_iff, bool_decide_eq_false in Ha'. apply Ha'. f_equal.
    rewrite Hflag. unfold PullRequestComparison.counter_truthy.
    apply bool_decide_eq_false. intros Hx. apply Hx. reflexivity.
  - rewrite <- Hs. apply change_summary_same_guard; try reflexivity. congruence.
Qed.
End FileLevel.

(** X5: every line comparison that [FileComparison.lines] returns has no
    base number exactly when it is added, no head number exactly when it is
    removed, is never both added and removed, and its [number] is the pair of
    the numbers it was built with. *)
Theorem file_lines_well_numbered :
  forall (C : Type) (HC : Coverage C) (fuel : nat) (fc : FileComparison.t C)
         (rows : list (LineComparison.t C)),
    FileComparison.lines fuel fc = Ok (Some rows) ->
    Forall well_numbered rows.
Proof.
  intros C HC fuel fc rows Hlines.
  destruct (lines_from_traversal fuel fc rows Hlines) as (v & Htrav & <-).
  refine (traversal_invariant
            (fun v => Forall well_numbered (CreateLineComparisonVisitor.lines v))
            _ fuel fc _ v _ Htrav).
  - intros b h lv d w. apply line_visitor_keeps_well_numbered.
  - constructor.
Qed.

Lemma file_lines_well_numbered_witness :
  Forall (well_numbered (C:=Z))
    [LineComparison.Make None None (Some 1) (Some 1) "x = 1" false].
Proof.
  apply (file_lines_well_numbered Z _ 1
           (FileComparison.__init__ None None None ["x = 1"] false None)).
  reflexivity.
Defined.

(** X6: whenever the change summary of a file comparison is computed, its
    only buckets are hits, misses and partials, and the three counts sum to
    zero. *)
Theorem change_summary_is_balanced :
  forall (C : Type) (HC : Coverage C) (fuel : nat) (fc : FileComparison.t C)
         (s : gmap string Z),
    FileComparison.change_summary fuel fc = Ok s ->
    (forall k, k <> "hits" -> k <> "misses" -> k <> "partials" -> s !! k = None)
    /\ CreateChangeSummaryVisitor.count s "hits"
       + CreateChangeSummaryVisitor.count s "misses"
       + CreateChangeSummaryVisitor.count s "partials" = 0.
Proof.
  intros C HC fuel fc s Hs.
  destruct (summary_from_traversal fuel fc s Hs) as (v & Htrav & <-).
  refine (traversal_invariant
            (fun v => balanced (CreateChangeSummaryVisitor.summary v))
            _ fuel fc _ v _ Htrav).
  - intros b h lv d w. apply summary_visitor_keeps_balanced.
  - split; [intros; apply lookup_empty|reflexivity].
Qed.

Lemma change_summary_is_balanced_witness :
  (forall k, k <> "hits" -> k <> "misses" -> k <> "partials" ->
             ({[ "hits" := -1; "misses" := 1 ]} : gmap string Z) !! k = None)
  /\ CreateChangeSummaryVisitor.count {[ "hits" := -1; "misses" := 1 ]} "hits"
     + CreateChangeSummaryVisitor.count {[ "hits" := -1; "misses" := 1 ]} "misses"
     + CreateChangeSummaryVisitor.count {[ "hits" := -1; "misses" := 1 ]} "partials" = 0.
Proof.
  apply (change_summary_is_balanced Z _ 1
           (FileComparison.__init__ (Some one_hit_line) (Some one_miss_line) None []
              false None)).
  vm_compute. reflexivity.
Defined.

(** X7: a file comparison that lacks the base report file or the head
    report file has an empty change summary and no changes, whatever its diff
    and its source. *)
Theorem change_summary_empty_without_file :
  forall (C : Type) (HC : Coverage C) (fuel : nat) (fc : FileComparison.t C)
         (s : gmap string Z),
    FileComparison.base_file fc = None \/ FileComparison.head_file fc = None ->
    FileComparison.change_summary fuel fc = Ok s ->
    s = ∅ /\ FileComparison.has_changes fuel fc = Ok false.
Proof.
  intros C HC fuel fc s Habs Hs.
  assert (Hempty : s = ∅).
  { destruct (summary_from_traversal fuel fc s Hs) as (v & Htrav & <-).
    set (v0 := CreateChangeSummaryVisitor.__init__ _ _) in Htrav.
    assert (Hv : v = v0).
    { refine (traversal_invariant (fun v => v = v0) _ fuel fc v0 v eq_refl Htrav).
      intros b h lv d w ->. apply summary_visitor_without_file. exact Habs. }
    rewrite Hv. reflexivity. }
  split; [exact Hempty|].
  unfold FileComparison.has_changes. rewrite Hs, Hempty. reflexivity.
Qed.

Lemma change_summary_empty_without_file_witness :
  (∅ : gmap string Z) = ∅
  /\ FileComparison.has_changes 2
       (FileComparison.__init__ (C:=Z) None (Some one_miss_line) None ["a"; "b"] false None)
     = Ok false.
Proof.
  apply (change_summary_empty_without_file Z _ 2
           (FileComparison.__init__ None (Some one_miss_line) None ["a"; "b"] false None)).
  - left. reflexivity.
  - vm_compute. reflexivity.
Defined.

(** X8: the cache of files with changes does not alter change summaries.
    When [files] has run over file comparisons with distinct head names and
    written its list, then for each of them [get_file_comparison], reading
    that list back, sets [should_search_for_changes] to whether the file's
    Counter had a key, and the change summary of the file comparison with
    that flag is the one it had. *)
Theorem files_cache_round_trip :
  forall (C : Type) (HC : Coverage C) (fuel : nat)
         (yielded : list (string * FileComparison.t C)) (written : list string)
         (name : string) (fc : FileComparison.t C),
    PullRequestComparison.files fuel yielded = Ok written ->
    NoDup yielded.*1 ->
    (name, fc) ∈ yielded ->
    exists s fc',
      FileComparison.change_summary fuel fc = Ok s
      /\ (name ∈ written <-> s <> ∅)
      /\ PullRequestComparison.get_file_comparison
           (PullRequestComparison.Returns (Some (PullRequestComparison.JNames written)))
           name fc = Ok fc'
      /\ FileComparison.should_search_for_changes fc'
         = Some (PullRequestComparison.counter_truthy s)
      /\ FileComparison.change_summary fuel fc' = Ok s.
Proof.
  intros C HC fuel yielded written name fc Hfiles Hnodup Hin.
  destruct (files_spec fuel yielded written name fc Hfiles Hnodup Hin) as (s & Hs & Hiff).
  destruct (flag_keeps_change_summary fuel fc s written name Hs Hiff) as (fc' & H1 & H2 & H3).
  exists s, fc'. auto.
Qed.

Lemma files_cache_round_trip_witness :
  exists s fc',
    FileComparison.change_summary 1
      (FileComparison.__init__ (Some one_hit_line) (Some one_miss_line) None [] false None)
      = Ok s
    /\ ("a.py" ∈ ["a.py"] <-> s <> ∅)
    /\ PullRequestComparison.get_file_comparison
         (PullRequestComparison.Returns (Some (PullRequestComparison.JNames ["a.py"])))
         "a.py"
         (FileComparison.__init__ (Some one_hit_line) (Some one_miss_line) None [] false None)
       = Ok fc'
    /\ FileComparison.should_search_for_changes fc'
       = Some (PullRequestComparison.counter_truthy s)
    /\ FileComparison.change_summary 1 fc' = Ok s.
Proof.
  apply (files_cache_round_trip Z _ 1
           [("a.py", FileComparison.__init__ (Some one_hit_line) (Some one_miss_line)
                       None [] false None);
            ("b.py", FileComparison.__init__ None (Some one_miss_line) None [] false None)]).
  - vm_compute. reflexivity.
  - apply (bool_decide_unpack _). vm_compute. exact I.
  - left.
Defined.

Section SingleHunkFile.
Context {C : Type} `{Coverage C}.

Lemma lines_of_calculated (fuel : nat) (fc : FileComparison.t C)
    (v : CreateLineComparisonVisitor.t C) :
  (MAX_DIFF_SIZE <? FileComparison.total_diff_length fc)
  && negb (FileComparison.bypass_max_diff fc) = false ->
  traversal fuel fc
    (CreateLineComparisonVisitor.__init__
       (FileComparison.base_file fc) (FileComparison.head_file fc)) = Ok v ->
  FileComparison.lines fuel fc = Ok (Some (CreateLineComparisonVisitor.lines v)).
Proof.
  intros Hsmall Htrav. unfold FileComparison.lines. rewrite Hsmall.
  pose proof (calculated_lines_traversal fuel fc) as Hl. rewrite Htrav in Hl.
  destruct (FileComparison._calculated_changes_and_lines fuel fc) as [[s l]| |];
    cbn [map_outcome bind snd] in Hl |- *; congruence.
Qed.
End SingleHunkFile.

(** X9: the lines of a file whose diff is one hunk and whose source is not
    supplied. If the hunk starts at the same line [s >= 1] in base and head,
    has at least one line and at most 170 (or truncation is bypassed), and
    its header lengths cover its lines, then [lines] is one line comparison
    per line of the hunk, in order and with its text, each flagged as a diff
    line; those with a base number are the lines that are not added, those
    with a head number the lines that are not removed. *)
Theorem file_lines_of_single_hunk :
  forall (C : Type) (HC : Coverage C) (fuel : nat)
         (base_file head_file : option (ReportFile C)) (d : DiffData)
         (hd : hunk_header) (ls : list string) (s : Z) (bypass_max_diff : bool)
         (should_search_for_changes : option bool),
    let heof := match head_file with Some f => eof f | None => 0 end in
    let beof := match base_file with Some f => eof f | None => 0 end in
    dd_segments d = Some [DiffSegment hd ls] ->
    int (base_start hd) = Ok s -> int (head_start hd) = Ok s ->
    1 <= s -> ls <> [] ->
    base_lines ls <= int_or_1 (base_len hd) ->
    head_lines ls <= int_or_1 (head_len hd) ->
    Z.of_nat (length ls) <= 170 \/ bypass_max_diff = true ->
    (Z.to_nat (s - 1) + (length ls
       + idle_steps heof beof (s + base_lines ls) (s + head_lines ls)) <= fuel)%nat ->
    exists rows,
      FileComparison.lines fuel
        (FileComparison.__init__ base_file head_file (Some d) [] bypass_max_diff
           should_search_for_changes) = Ok (Some rows)
      /\ map LineComparison.value rows = ls
      /\ Forall (fun row => LineComparison.is_diff row = true) rows
      /\ base_lines ls
         = Z.of_nat (length (filter (fun row => LineComparison.base_ln row <> None) rows))
      /\ head_lines ls
         = Z.of_nat (length (filter (fun row => LineComparison.head_ln row <> None) rows)).
Proof.
  intros C HC fuel base_file head_file d hd ls s bypass ssfc heof beof
    Hsegs Hsb Hsh Hs Hne Hbl Hhl Hsmall Hfuel.
  set (fc := FileComparison.__init__ base_file head_file (Some d) [] bypass ssfc).
  set (v0 := CreateLineComparisonVisitor.__init__ base_file head_file).
  destruct (apply_single_hunk (CreateLineComparisonVisitor.t C) _ fuel heof beof s hd ls v0
              Hsb Hsh Hs Hne Hbl Hhl Hfuel) as (m & final & Hinit & Happ & _).
  assert (Htruthy : DiffData_truthy (Some d) = true).
  { cbn [DiffData_truthy]. rewrite Hsegs.
    rewrite (bool_decide_eq_true_2 (is_Some (Some [DiffSegment hd ls]))) by eauto.
    rewrite orb_true_r. reflexivity. }
  match type of Happ with _ = Ok (_, ?x) => set (vfin := x) in * end.
  assert (Htrav : traversal fuel fc v0 = Ok vfin).
  { unfold traversal, FileComparison.applies_visitors, FileComparison.manager, fc.
    cbn [FileComparison.diff_data FileComparison.__init__ FileComparison.src
         FileComparison.head_file FileComparison.base_file].
    rewrite Htruthy, Hsegs. cbn [orb default id]. fold heof beof.
    rewrite Hinit. cbn [bind]. rewrite Happ. reflexivity. }
  assert (Hlen : FileComparison.total_diff_length fc = Z.of_nat (length ls)).
  { unfold fc. cbn [FileComparison.total_diff_length FileComparison.__init__].
    rewrite Hsegs. reflexivity. }
  assert (Hnot : (MAX_DIFF_SIZE <? FileComparison.total_diff_length fc)
                 && negb (FileComparison.bypass_max_diff fc) = false).
  { rewrite Hlen. unfold MAX_DIFF_SIZE. destruct Hsmall as [Hle| ->].
    - apply andb_false_iff. left. lia.
    - apply andb_false_iff. right. reflexivity. }
  rewrite (lines_of_calculated fuel fc _ Hnot Htrav).
  unfold vfin. rewrite !idle_visits_lines.
  destruct (hunk_visits_lines ls s s v0) as (rows & Hrows & Hvals & Hdiff & Hb & Hh).
  exists rows. rewrite Hrows. auto.
Qed.

Lemma file_lines_of_single_hunk_witness :
  exists rows,
    FileComparison.lines 4
      (FileComparison.__init__ (C:=Z) None None
         (Some {| dd_stats := None;
                  dd_segments :=
                    Some [DiffSegment (Header (HStr 2) (HStr 2) (HStr 2) (HStr 2))
                            [" a"; "-b"; "+c"]];
                  dd_before := None; dd_totals := None |})
         [] false None) = Ok (Some rows)
    /\ map LineComparison.value rows = [" a"; "-b"; "+c"]
    /\ Forall (fun row => LineComparison.is_diff row = true) rows
    /\ base_lines [" a"; "-b"; "+c"]
       = Z.of_nat (length (filter (fun row => LineComparison.base_ln row <> None) rows))
    /\ head_lines [" a"; "-b"; "+c"]
       = Z.of_nat (length (filter (fun row => LineComparison.head_ln row <> None) rows)).
Proof.
  apply (file_lines_of_single_hunk Z _ 4 None None _
           (Header (HStr 2) (HStr 2) (HStr 2) (HStr 2)) [" a"; "-b"; "+c"] 2 false None);
    first [reflexivity | discriminate | vm_compute; lia | vm_compute; discriminate
          | left; vm_compute; discriminate].
Defined.

(** X10: how an iteration of the traversal loop fails. The start cells of
    the front segment's header are read first, the base cell before the head
    cell: an empty string raises ValueError and [None] raises TypeError. With
    the cursors in the range of a front segment that has no line the
    iteration raises IndexError (the pop from an empty list); outside the
    front segment, with a source that the head cursor has run past while
    segments remain, the traversal is not finished and the lookup in the
    source raises IndexError. *)
Theorem step_failures :
  forall (V : Type) (HV : Visitor V) (heof beof b h : Z) (hd : hunk_header)
         (ls : list string) (rest : list diff_segment) (src : list string) (v : V),
    let self := FileComparisonTraverseManager.Manager heof beof
                  (DiffSegment hd ls :: rest) src b h in
    (base_start hd = HEmpty ->
     FileComparisonTraverseManager.step self v = Raise ValueError)
    /\ (base_start hd = HNone ->
        FileComparisonTraverseManager.step self v = Raise TypeError)
    /\ (forall n, int (base_start hd) = Ok n -> head_start hd = HEmpty ->
        FileComparisonTraverseManager.step self v = Raise ValueError)
    /\ (forall n, int (base_start hd) = Ok n -> head_start hd = HNone ->
        FileComparisonTraverseManager.step self v = Raise TypeError)
    /\ (FileComparisonTraverseManager.traversing_diff self = Ok true -> ls = [] ->
        FileComparisonTraverseManager.step self v = Raise IndexError)
    /\ (FileComparisonTraverseManager.traversing_diff self = Ok false -> src <> [] ->
        Z.of_nat (length src) < h ->
        FileComparisonTraverseManager.traverse_finished self = false
        /\ FileComparisonTraverseManager.step self v = Raise IndexError).
Proof.
  intros V HV heof beof b h hd ls rest src v self.
  assert (Hcells : forall e,
            FileComparisonTraverseManager.traversing_diff self = Raise e ->
            FileComparisonTraverseManager.step self v = Raise e).
  { intros e He.
    unfold FileComparisonTraverseManager.step, FileComparisonTraverseManager.pop_line.
    rewrite He. reflexivity. }
  split; [|split; [|split; [|split; [|split]]]].
  - intros Hb. apply Hcells.
    unfold FileComparisonTraverseManager.traversing_diff.
    cbn [FileComparisonTraverseManager.segments self header]. rewrite Hb. reflexivity.
  - intros Hb. apply Hcells.
    unfold FileComparisonTraverseManager.traversing_diff.
    cbn [FileComparisonTraverseManager.segments self header]. rewrite Hb. reflexivity.
  - intros n Hb Hh. apply Hcells.
    unfold FileComparisonTraverseManager.traversing_diff.
    cbn [FileComparisonTraverseManager.segments self header]. rewrite Hb, Hh. reflexivity.
  - intros n Hb Hh. apply Hcells.
    unfold FileComparisonTraverseManager.traversing_diff.
    cbn [FileComparisonTraverseManager.segments self header]. rewrite Hb, Hh. reflexivity.
  - intros Hin ->.
    unfold FileComparisonTraverseManager.step, FileComparisonTraverseManager.pop_line.
    rewrite Hin. reflexivity.
  - intros Hout Hsrc Hpast. split; [reflexivity|].
    unfold FileComparisonTraverseManager.step, FileComparisonTraverseManager.pop_line.
    rewrite Hout.
    cbn [bind FileComparisonTraverseManager.src self FileComparisonTraverseManager.head_ln].
    destruct src as [|x src']; [contradiction|]. cbn [Py.truthy].
    rewrite index_out_of_range by lia. reflexivity.
Qed.

(** * Further properties of the display segments *)

Section SortedGroups.

Lemma adjacent_app_inv {A} (R : A -> A -> Prop) (l1 l2 : list A) :
  adjacent R (l1 ++ l2) -> adjacent R l1 /\ adjacent R l2.
Proof.
  induction l1 as [|a l1 IH]; [cbn; auto|].
  destruct l1 as [|b l1].
  - cbn [app]. destruct l2 as [|c l2]; cbn; [auto|]. intros [_ Hl2]. auto.
  - cbn [app adjacent]. intros [Hab Hrest]. destruct (IH Hrest) as [H1 H2].
    cbn [adjacent]. auto.
Qed.

Lemma adjacent_concat_inv {A} (R : A -> A -> Prop) (gs : list (list A)) :
  adjacent R (concat gs) -> Forall (adjacent R) gs.
Proof.
  induction gs as [|g gs IH]; [constructor|].
  cbn [concat]. intros Hadj. apply adjacent_app_inv in Hadj as [Hg Hgs].
  constructor; [exact Hg|apply IH, Hgs].
Qed.

Lemma increasing_head_le_last (g : list Z) (a z : Z) :
  adjacent Z.lt g -> head g = Some a -> last g = Some z -> a <= z.
Proof.
  revert a. induction g as [|x g IH]; intros a Hadj Hhead Hlast; [discriminate|].
  injection Hhead as ->. destruct g as [|y g].
  - injection Hlast as ->. lia.
  - destruct Hadj as [Hxy Hrest]. rewrite last_cons_cons in Hlast.
    specialize (IH y Hrest eq_refl Hlast). lia.
Qed.
End SortedGroups.

Section SegmentContents.
Import Segment.
Context {C : Type} `{Coverage C}.

Lemma line_numbers_from_bounds (idx : Z) (lines : list (LineComparison.t C)) :
  Forall (fun i => idx <= i < idx + Z.of_nat (length lines)) (line_numbers_from idx lines).
Proof.
  revert idx. induction lines as [|line rest IH]; intros idx; [constructor|].
  cbn [line_numbers_from length].
  assert (Hrest : Forall (fun i => idx <= i < idx + Z.of_nat (S (length rest)))
                    (line_numbers_from (idx + 1) rest)).
  { eapply Forall_impl; [apply IH|]. cbn. intros i Hi. lia. }
  destruct (of_interest line); [constructor; [lia|exact Hrest]|exact Hrest].
Qed.

Lemma line_numbers_from_increasing (idx : Z) (lines : list (LineComparison.t C)) :
  adjacent Z.lt (line_numbers_from idx lines).
Proof.
  revert idx. induction lines as [|line rest IH]; intros idx; [exact I|].
  cbn [line_numbers_from]. destruct (of_interest line); [|apply IH].
  pose proof (line_numbers_from_bounds (idx + 1) rest) as Hb.
  specialize (IH (idx + 1)).
  destruct (line_numbers_from (idx + 1) rest) as [|b t]; [exact I|].
  split; [|exact IH]. inversion Hb; subst. lia.
Qed.

Lemma slice_lookup {A} (l : list A) (a b i : Z) :
  0 <= a -> a <= i -> i <= b -> b < Z.of_nat (length l) ->
  Py.slice l a (b + 1) !! Z.to_nat (i - a) = l !! Z.to_nat i.
Proof.
  intros Ha Hai Hib Hb. unfold Py.slice, Py.clamp.
  replace (a <? 0) with false by lia. replace (b + 1 <? 0) with false by lia.
  rewrite lookup_take_lt by lia. rewrite lookup_drop. f_equal. lia.
Qed.

(** A group of the grouper: its first index is the index of a line of
    interest, and the bounds of its segment are in range and enclose it. *)
Lemma group_first_line (lines : list (LineComparison.t C)) (g : list Z) :
  g ∈ segmented_lines (line_numbers lines) ->
  exists a z line,
    head g = Some a /\ last g = Some z /\ 0 <= a /\ a <= z
    /\ z < Z.of_nat (length lines)
    /\ lines !! Z.to_nat a = Some line /\ of_interest line = true.
Proof.
  intros Hg.
  destruct (segmented_lines_spec (line_numbers lines)) as (Hcat & Hne & _ & _).
  assert (Hsorted : adjacent Z.lt g).
  { pose proof (line_numbers_from_increasing 0 lines) as Hinc.
    fold (line_numbers lines) in Hinc. rewrite <- Hcat in Hinc.
    apply adjacent_concat_inv in Hinc. rewrite Forall_forall in Hinc. apply Hinc, Hg. }
  assert (Hmem : forall i, i ∈ g -> i ∈ line_numbers lines).
  { intros i Hi. rewrite <- Hcat. apply list_elem_of_In, in_concat.
    exists g. split; apply list_elem_of_In; assumption. }
  rewrite Forall_forall in Hne. specialize (Hne g Hg).
  destruct g as [|a g']; [contradiction|].
  destruct (last (a :: g')) as [z|] eqn:Hlast; [|apply last_None in Hlast; discriminate].
  assert (Ha : a ∈ line_numbers lines) by (apply Hmem; left).
  assert (Hz : z ∈ line_numbers lines) by (apply Hmem, last_Some_elem_of, Hlast).
  pose proof (line_numbers_from_bounds 0 lines) as Hb. rewrite Forall_forall in Hb.
  pose proof (Hb z Hz) as Hzb.
  unfold line_numbers in Ha. apply line_numbers_from_spec in Ha as (Ha0 & line & Hl & Hint).
  rewrite Z.sub_0_r in Hl.
  exists a, z, line. repeat split; try assumption; try lia.
  eapply increasing_head_le_last; eauto.
Qed.

Lemma unintended_in_spec (rows : list (LineComparison.t C)) :
  unintended_in rows = true <->
  exists row, row ∈ rows
    /\ LineComparison.added row = false /\ LineComparison.removed row = false
    /\ (LineComparison.coverage row).1 <> (LineComparison.coverage row).2.
Proof.
  induction rows as [|r rows IH].
  { cbn. split; [discriminate|]. intros (row & Hin & _). apply elem_of_nil in Hin.
    contradiction. }
  cbn [unintended_in].
  destruct (negb (LineComparison.added r || LineComparison.removed r)
            && bool_decide ((LineComparison.coverage r).2 <> (LineComparison.coverage r).1))
    eqn:Hr.
  - split; [intros _|reflexivity]. exists r.
    apply andb_true_iff in Hr as [Hflags Hcov].
    apply negb_true_iff, orb_false_iff in Hflags as [Ha Hrm].
    apply bool_decide_eq_true in Hcov. split; [left|]. auto.
  - rewrite IH. split.
    + intros (row & Hin & Hrow). exists row. split; [right; exact Hin|exact Hrow].
    + intros (row & Hin & Ha & Hrm & Hcov). apply elem_of_cons in Hin as [->|Hin].
      * exfalso. rewrite Ha, Hrm in Hr. cbn [orb negb andb] in Hr.
        apply bool_decide_eq_false in Hr. apply Hr. auto.
      * exists row. auto.
Qed.
End SegmentContents.

(** X11: the display segments of a file. The index ranges of successive
    segments do not overlap and are in order; each range lies within
    0..len(lines)-1, and each segment contains a line of interest, so that no
    segment is empty. *)
Theorem segments_are_disjoint_and_inhabited :
  forall (C : Type) (HC : Coverage C) (lines : list (LineComparison.t C)),
    let n := Z.of_nat (length lines) in
    let groups := Segment.segmented_lines (Segment.line_numbers lines) in
    Segment.segments lines = Ok (map (segment_of lines) groups)
    /\ adjacent (fun g1 g2 => (group_bounds n g1).2 < (group_bounds n g2).1) groups
    /\ Forall (fun g =>
                 0 <= (group_bounds n g).1 /\ (group_bounds n g).1 <= (group_bounds n g).2
                 /\ (group_bounds n g).2 <= n - 1
                 /\ exists line, line ∈ Segment._lines (segment_of lines g)
                                 /\ Segment.of_interest line = true) groups.
Proof.
  intros C HC lines n groups.
  destruct (segmented_lines_spec (Segment.line_numbers lines)) as (Hcat & Hne & Hnear & Hfar).
  fold groups in Hcat, Hne, Hnear, Hfar.
  split; [apply build_segments; exact Hne|]. split.
  - clear Hcat Hnear. induction groups as [|g1 gs IH]; [exact I|].
    destruct gs as [|g2 gs]; [exact I|].
    destruct Hfar as [(a & b & Hlast & Hhead & Hgap) Hrest].
    inversion Hne; subst.
    split; [|apply IH; assumption].
    unfold group_bounds, Segment.padding_lines, Segment.line_distance in *.
    rewrite Hlast, Hhead. cbn [fst snd default id]. lia.
  - apply Forall_forall. intros g Hg.
    destruct (group_first_line lines g Hg) as (a & z & line & Hhead & Hlast & Ha & Haz & Hz & Hl & Hint).
    unfold group_bounds, Segment.padding_lines. rewrite Hhead, Hlast. cbn [fst snd default id].
    fold n in Hz. split; [lia|]. split; [lia|]. split; [lia|].
    exists line. split; [|exact Hint].
    unfold segment_of, group_bounds, Segment.padding_lines.
    rewrite Hhead, Hlast. cbn [fst snd default id Segment._lines].
    apply (list_elem_of_lookup_2 _ (Z.to_nat (a - Z.max (a - 3) 0))).
    rewrite slice_lookup by (fold n; lia). exact Hl.
Qed.

(** X12: [has_unintended_changes] holds of a segment exactly when one of its
    lines is neither added nor removed and has different base and head
    coverage classes; in a file without added and removed lines it holds of
    every segment the grouper builds. *)
Theorem has_unintended_changes_spec :
  forall (C : Type) (HC : Coverage C),
    (forall seg : Segment.t C,
       Segment.has_unintended_changes seg = true <->
       exists row, row ∈ Segment._lines seg
         /\ LineComparison.added row = false /\ LineComparison.removed row = false
         /\ (LineComparison.coverage row).1 <> (LineComparison.coverage row).2)
    /\ (forall lines : list (LineComparison.t C),
          Forall (fun row => LineComparison.added row = false
                             /\ LineComparison.removed row = false) lines ->
          Forall (fun g => Segment.has_unintended_changes (segment_of lines g) = true)
            (Segment.segmented_lines (Segment.line_numbers lines))).
Proof.
  intros C HC. split.
  - intros seg. apply unintended_in_spec.
  - intros lines Hplain. apply Forall_forall. intros g Hg.
    destruct (group_first_line lines g Hg)
      as (a & z & line & Hhead & Hlast & Ha & Haz & Hz & Hl & Hint).
    apply unintended_in_spec. exists line.
    rewrite Forall_forall in Hplain.
    destruct (Hplain line (list_elem_of_lookup_2 _ _ _ Hl)) as [Hna Hnr].
    split.
    + unfold segment_of, group_bounds, Segment.padding_lines.
      rewrite Hhead, Hlast. cbn [fst snd default id Segment._lines].
      apply (list_elem_of_lookup_2 _ (Z.to_nat (a - Z.max (a - 3) 0))).
      rewrite slice_lookup by lia. exact Hl.
    + split; [exact Hna|]. split; [exact Hnr|].
      unfold Segment.of_interest in Hint. rewrite Hna, Hnr, !orb_false_r in Hint.
      apply bool_decide_eq_true in Hint. exact Hint.
Qed.

Section HeaderFacts.
Import Segment.
Context {C : Type} `{Coverage C}.

Lemma count_rows_cons (p : LineComparison.t C -> bool) (r : LineComparison.t C)
    (rows : list (LineComparison.t C)) :
  count_rows p (r :: rows) = (if p r then 1 else 0) + count_rows p rows.
Proof. unfold count_rows. cbn [List.filter]. destruct (p r); cbn [length]; lia. Qed.

Lemma fold_header_step (rows : list (LineComparison.t C)) (st : header_state) :
  fold_left header_step rows st =
  HeaderState
    (match hs_base_start st with
     | Some n => Some n
     | None => head (omap (fun r => (LineComparison.number r).1) rows)
     end)
    (match hs_head_start st with
     | Some n => Some n
     | None => head (omap (fun r => (LineComparison.number r).2) rows)
     end)
    (num_removed st
     + count_rows (fun r => negb (LineComparison.added r) && LineComparison.removed r) rows)
    (num_added st + count_rows LineComparison.added rows)
    (num_context st
     + count_rows (fun r => negb (LineComparison.added r)
                            && negb (LineComparison.removed r)) rows).
Proof.
  revert st. induction rows as [|r rows IH]; intros st.
  { cbn [fold_left omap head]. unfold count_rows. cbn. rewrite !Z.add_0_r.
    destruct st as [[b|] [h|] ? ? ?]; reflexivity. }
  cbn [fold_left]. rewrite IH, !count_rows_cons. unfold header_step.
  cbn [omap list_omap].
  destruct (hs_base_start st) as [b|], (hs_head_start st) as [h|],
    ((LineComparison.number r).1) as [nb|], ((LineComparison.number r).2) as [nh|],
    (LineComparison.added r), (LineComparison.removed r);
    cbn [hs_base_start hs_head_start num_removed num_added num_context negb andb head];
    f_equal; lia.
Qed.

Lemma removed_not_added (r : LineComparison.t C) :
  LineComparison.added r = true -> LineComparison.removed r = false.
Proof. apply added_not_removed. Qed.

Lemma count_not_added (rows : list (LineComparison.t C)) :
  count_rows (fun r => negb (LineComparison.added r)
                       && negb (LineComparison.removed r)) rows
  + count_rows (fun r => negb (LineComparison.added r) && LineComparison.removed r) rows
  = count_rows (fun r => negb (LineComparison.added r)) rows.
Proof.
  induction rows as [|r rows IH]; [reflexivity|]. rewrite !count_rows_cons.
  destruct (LineComparison.added r), (LineComparison.removed r); cbn [negb andb]; lia.
Qed.

Lemma count_not_removed (rows : list (LineComparison.t C)) :
  count_rows (fun r => negb (LineComparison.added r)
                       && negb (LineComparison.removed r)) rows
  + count_rows LineComparison.added rows
  = count_rows (fun r => negb (LineComparison.removed r)) rows.
Proof.
  induction rows as [|r rows IH]; [reflexivity|]. rewrite !count_rows_cons.
  pose proof (removed_not_added r) as Hexcl.
  destruct (LineComparison.added r), (LineComparison.removed r); cbn [negb andb];
    first [lia | specialize (Hexcl eq_refl); discriminate].
Qed.
End HeaderFacts.

(** X13: the header of a display segment is the base number of its first
    line that has one (0 if none has), the number of its lines that are not
    added, the head number of its first line that has one (0 if none has),
    and the number of its lines that are not removed; for a segment without
    lines it is (0, 0, 0, 0). *)
Theorem segment_header_spec :
  forall (C : Type) (HC : Coverage C) (seg : Segment.t C),
    Segment.header seg =
    (first_number (fun r => (LineComparison.number r).1) (Segment._lines seg),
     count_rows (fun r => negb (LineComparison.added r)) (Segment._lines seg),
     first_number (fun r => (LineComparison.number r).2) (Segment._lines seg),
     count_rows (fun r => negb (LineComparison.removed r)) (Segment._lines seg)).
Proof.
  intros C HC seg. unfold Segment.header. rewrite fold_header_step.
  cbn [Segment.hs_base_start Segment.hs_head_start Segment.num_removed Segment.num_added
       Segment.num_context].
  rewrite !Z.add_0_l, count_not_added, count_not_removed. reflexivity.
Qed.

Section SessionsFacts.

Lemma fold_left_add_ones (l : list Z) (a : Z) :
  Forall (fun c => c = 1) l -> fold_left Z.add l a = a + Z.of_nat (length l).
Proof.
  revert a. induction l as [|x l IH]; intros a Hl; [cbn; lia|].
  inversion Hl; subst. cbn [fold_left length]. rewrite IH by assumption. lia.
Qed.

Lemma filter_ones (l : list Z) : Forall (fun c => c = 1) (filter (fun c => c = 1) l).
Proof. apply Forall_forall. intros c Hc. apply list_elem_of_filter in Hc. tauto. Qed.
End SessionsFacts.

(** X14: [sessions] of a line comparison is the number of sessions of the
    head line whose coverage is 1, and null, not 0, when the head line is
    absent or no session has coverage 1. *)
Theorem sessions_spec :
  forall self : LineComparison.t Z,
    LineComparison.sessions self =
    match LineComparison.head_line self with
    | None => None
    | Some l =>
        let hits := Z.of_nat (length (filter (fun c => c = 1) (map snd (sessions l)))) in
        if hits =? 0 then None else Some hits
    end.
Proof.
  intros self. unfold LineComparison.sessions.
  destruct (LineComparison.head_line self) as [l|]; [|reflexivity].
  pose proof (filter_ones (map snd (sessions l))) as Hones.
  destruct (filter (fun c => c = 1) (map snd (sessions l))) as [|a rest]; [reflexivity|].
  inversion Hones; subst. rewrite fold_left_add_ones by assumption.
  cbv zeta. cbn [length].
  replace (Z.of_nat (S (length rest)) =? 0) with false by (symmetry; apply Z.eqb_neq; lia).
  f_equal. lia.
Qed.

Section PatchFacts.
Import ComparisonReport.

Lemma fold_count_line (l : list (Z * string)) (p : patch_coverage) :
  fold_left count_line l p =
  PatchCoverage (hits p + count_type "h" l) (misses p + count_type "m" l)
                (partials p + count_type "p" l).
Proof.
  revert p. induction l as [|[ln t] l IH]; intros p.
  { unfold count_type. cbn. rewrite !Z.add_0_r. destruct p; reflexivity. }
  cbn [fold_left]. rewrite IH. unfold count_line, count_type. cbn [snd].
  rewrite !filter_cons. cbn [snd].
  repeat case_bool_decide; repeat case_decide; subst; try discriminate; try contradiction;
    cbn [hits misses partials length]; f_equal; lia.
Qed.

Lemma count_types_le (l : list (Z * string)) :
  count_type "h" l + count_type "m" l + count_type "p" l <= Z.of_nat (length l)
  /\ (Forall (fun e => e.2 = "h" \/ e.2 = "m" \/ e.2 = "p") l ->
      count_type "h" l + count_type "m" l + count_type "p" l = Z.of_nat (length l)).
Proof.
  induction l as [|[ln t] l [IHle IHeq]].
  { split; [change (0 + 0 + 0 <= 0); lia|intros _; reflexivity]. }
  unfold count_type in *. rewrite !filter_cons. cbn [snd length].
  split.
  - repeat case_decide; subst; try discriminate; cbn [length]; lia.
  - intros Hall. inversion Hall as [|? ? Ht Hrest]; subst. specialize (IHeq Hrest).
    cbn [snd] in Ht.
    repeat case_decide; subst; try discriminate; cbn [length]; try lia. tauto.
Qed.
End PatchFacts.

(** X15: [compute_patch_per_file] is null for an empty list of added lines;
    otherwise its hits, misses and partials are the numbers of entries of
    type "h", "m" and "p", entries of any other type are counted nowhere, and
    the three numbers add up to at most the number of entries, and to exactly
    that number when every entry has one of the three types. *)
Theorem compute_patch_per_file_spec :
  forall added_diff_coverage : list (Z * string),
    (added_diff_coverage = [] ->
     ComparisonReport.compute_patch_per_file added_diff_coverage = None)
    /\ (added_diff_coverage <> [] ->
        ComparisonReport.compute_patch_per_file added_diff_coverage =
        Some (ComparisonReport.PatchCoverage
                (count_type "h" added_diff_coverage)
                (count_type "m" added_diff_coverage)
                (count_type "p" added_diff_coverage)))
    /\ count_type "h" added_diff_coverage + count_type "m" added_diff_coverage
       + count_type "p" added_diff_coverage <= Z.of_nat (length added_diff_coverage)
    /\ (Forall (fun e => e.2 = "h" \/ e.2 = "m" \/ e.2 = "p") added_diff_coverage ->
        count_type "h" added_diff_coverage + count_type "m" added_diff_coverage
        + count_type "p" added_diff_coverage = Z.of_nat (length added_diff_coverage)).
Proof.
  intros l. split; [intros ->; reflexivity|]. split.
  - intros Hne. unfold ComparisonReport.compute_patch_per_file.
    destruct l as [|e l]; [contradiction|]. cbn [Py.truthy].
    rewrite fold_count_line. reflexivity.
  - apply count_types_le.
Qed.

(** * Source lines that look like diff lines *)

Section UnremovedSource.
Import FileComparisonTraverseManager.
Context {V : Type} `{Visitor V}.

Lemma step_unremoved_source_line (heof beof : Z) (done rest : list string) (l : string)
    (b : Z) (v : V) :
  _is_removed (Some l) = false ->
  step (Manager heof beof [] (done ++ l :: rest) b (Z.of_nat (length done) + 1)) v =
  Ok (Manager heof beof [] (done ++ l :: rest)
        (if _is_added (Some l) then b else b + 1) (Z.of_nat (length done) + 1 + 1),
      call (if _is_added (Some l) then None else Some b)
           (Some (Z.of_nat (length done) + 1)) (Some l) false v).
Proof.
  intros Hr. unfold step, pop_line.
  cbn [traversing_diff segments bind FileComparisonTraverseManager.src head_ln].
  replace (Py.truthy (done ++ l :: rest)) with true by (destruct done; reflexivity).
  rewrite index_app_middle. cbn [bind traversing_diff segments base_ln head_ln].
  rewrite Hr. unfold advance, drop_done. rewrite Hr.
  destruct (_is_added (Some l)); reflexivity.
Qed.

Lemma apply_unremoved_source_lines (rest done : list string) (fuel : nat)
    (heof beof b : Z) (v : V) :
  Forall (fun l => _is_removed (Some l) = false) rest ->
  done ++ rest <> [] -> (length rest <= fuel)%nat ->
  apply fuel (Manager heof beof [] (done ++ rest) b (Z.of_nat (length done) + 1)) v =
  Ok (Manager heof beof [] (done ++ rest) (b + base_lines rest)
        (Z.of_nat (length (done ++ rest)) + 1),
      unremoved_source_visits rest b (Z.of_nat (length done) + 1) v).
Proof.
  revert done fuel b v. induction rest as [|l rest IH]; intros done fuel b v Hplain Hne Hfuel.
  - rewrite apply_finished.
    + cbn [base_lines unremoved_source_visits]. rewrite app_nil_r, Z.add_0_r. reflexivity.
    + unfold traverse_finished.
      cbn [segments Py.truthy FileComparisonTraverseManager.src head_ln].
      rewrite app_nil_r in *. destruct done; [contradiction|]. cbn [Py.truthy]. lia.
  - destruct fuel as [|fuel]; [cbn [length] in Hfuel; lia|].
    inversion Hplain as [|? ? Hl Hrest]; subst.
    rewrite apply_unfold.
    replace (traverse_finished _) with false.
    2:{ unfold traverse_finished.
        cbn [segments Py.truthy FileComparisonTraverseManager.src head_ln].
        replace (Py.truthy (done ++ l :: rest)) with true by (destruct done; reflexivity).
        symmetry. apply Z.ltb_ge. rewrite length_app. cbn [length]. lia. }
    rewrite step_unremoved_source_line by exact Hl.
    cbn [bind unremoved_source_visits base_lines].
    specialize (IH (done ++ [l]) fuel (if _is_added (Some l) then b else b + 1)
                  (call (if _is_added (Some l) then None else Some b)
                        (Some (Z.of_nat (length done) + 1)) (Some l) false v)).
    rewrite <- app_assoc in IH. cbn [app] in IH.
    rewrite length_app in IH. cbn [length] in IH.
    replace (Z.of_nat (length done + 1)) with (Z.of_nat (length done) + 1) in IH by lia.
    rewrite IH; [|exact Hrest|destruct done; discriminate|cbn [length] in Hfuel; lia].
    do 3 f_equal. destruct (_is_added (Some l)); lia.
Qed.
End UnremovedSource.

(** X16: with no segment and a non-empty source none of whose lines begins
    with a minus sign, the traversal is done after len(src) iterations and
    the head cursor ends at len(src) + 1; but every source line that begins
    with a plus sign is visited as an added line, without base number, and
    does not move the base cursor, which ends at 1 plus the number of the
    other lines. *)
Theorem source_traversal_takes_plus_lines_for_added :
  forall (V : Type) (HV : Visitor V) (fuel : nat) (heof beof : Z)
         (src : list string) (v : V),
    src <> [] -> Forall (fun l => _is_removed (Some l) = false) src ->
    (length src <= fuel)%nat ->
    exists m,
      FileComparisonTraverseManager.__init__ heof beof [] src = Ok m
      /\ FileComparisonTraverseManager.apply fuel m v =
         Ok (FileComparisonTraverseManager.Manager heof beof [] src
               (1 + base_lines src) (Z.of_nat (length src) + 1),
             unremoved_source_visits src 1 1 v).
Proof.
  intros V HV fuel heof beof src v Hne Hplain Hfuel.
  eexists. split; [reflexivity|].
  exact (apply_unremoved_source_lines src [] fuel heof beof 1 v Hplain Hne Hfuel).
Qed.

Lemma source_traversal_takes_plus_lines_for_added_witness :
  exists m,
    FileComparisonTraverseManager.__init__ 0 0 [] ["+ item"; "text"] = Ok m
    /\ FileComparisonTraverseManager.apply 2 m
         (CreateLineComparisonVisitor.__init__ (C:=Z) None None) =
       Ok (FileComparisonTraverseManager.Manager 0 0 [] ["+ item"; "text"]
             (1 + base_lines ["+ item"; "text"]) (Z.of_nat 2 + 1),
           unremoved_source_visits ["+ item"; "text"] 1 1
             (CreateLineComparisonVisitor.__init__ None None)).
Proof.
  apply (source_traversal_takes_plus_lines_for_added (CreateLineComparisonVisitor.t Z) _
           2 0 0 ["+ item"; "text"]).
  - discriminate.
  - repeat constructor.
  - simpl. lia.
Defined.
